(** * validate_xml: batch validation of XML files against one XML Schema

    A shallow embedding of the two scripts of the repository,
    [batch_validate_xml.py] (CSV report) and [validate_xml_0_0_4.py] (text
    report): file discovery ([GetFiles.get_files]), validation
    ([validate_xml]), report writing ([write_errors]) and the button callback
    that chains them ([MainApplication.validate]).

    Python's own libraries ([re], [lxml.etree], the clock) are interfaces
    here: a type class per library, whose operations are the ones the
    scripts call.  Printing and the Tk variables are recorded as a trace of
    events, exceptions as a [result]. *)

From Stdlib Require Import List String Ascii Bool Arith ZArith Lia.
From Stdlib Require Import DecimalString.
Import ListNotations.
Open Scope string_scope.
Open Scope list_scope.

(** ** Python values and outcomes *)

(** The exceptions the scripts can meet.  Only [re_error] and [OSError] are
    ever caught ([except (re.error)], [except(OSError)]); [OverflowError] and
    [RecursionError] are what compiling a pattern raises besides [re.error]
    (a repeat count too large, groups nested too deep). *)
Inductive exn : Type :=
| re_error
| OSError
| XMLSyntaxError
| XMLSchemaParseError
| OverflowError
| RecursionError.

(** A call either returns a value or raises. *)
Inductive result (A : Type) : Type :=
| Return (a : A)
| Raise (e : exn).
Arguments Return {A} a.
Arguments Raise {A} e.

Definition raised {A : Type} (r : result A) : bool :=
  match r with Raise _ => true | Return _ => false end.

Definition LF : ascii := "010"%char.
Definition CR : ascii := "013"%char.
Definition DQUOTE : ascii := "034"%char.
Definition SEP : ascii := "/"%char.

Definition nl : string := String LF EmptyString.

(** [sep.join(parts)] *)
Fixpoint str_join (sep : string) (parts : list string) : string :=
  match parts with
  | [] => EmptyString
  | [p] => p
  | p :: rest => p ++ sep ++ str_join sep rest
  end.

(** [str(n)] of a Python integer. *)
Definition str_int (z : Z) : string := NilZero.string_of_int (Z.to_int z).

(** ** os.path (posixpath) *)

Fixpoint contains_sep (p : string) : bool :=
  match p with
  | EmptyString => false
  | String c r => Ascii.eqb c SEP || contains_sep r
  end.

Definition startswith_sep (p : string) : bool :=
  match p with
  | String c _ => Ascii.eqb c SEP
  | EmptyString => false
  end.

Fixpoint endswith_sep (p : string) : bool :=
  match p with
  | EmptyString => false
  | String c EmptyString => Ascii.eqb c SEP
  | String _ r => endswith_sep r
  end.

(** [os.path.join(a, b)]: [b] alone when it is absolute, no separator added
    after an empty [a] or one that ends in a separator. *)
Definition join (a b : string) : string :=
  if startswith_sep b then b
  else if (String.eqb a EmptyString || endswith_sep a)%bool then a ++ b
  else a ++ String SEP b.

(** [os.path.basename(p)]: what follows the last separator. *)
Fixpoint basename (p : string) : string :=
  match p with
  | EmptyString => EmptyString
  | String c r =>
      if contains_sep r then basename r
      else if Ascii.eqb c SEP then r
      else p
  end.

(** ** The directory tree and os.walk *)

(** A directory holds named entries, in the order [os.scandir] lists them.
    (Plain files and directories; symbolic links are not part of the model.) *)
#[local] Unset Elimination Schemes.
Inductive node : Type :=
| File
| Dir (entries : list (string * node)).
#[local] Set Elimination Schemes.

(** Induction on trees: a property of a directory may use it for every
    child. *)
Fixpoint node_ind (P : node -> Prop) (HFile : P File)
    (HDir : forall entries, Forall (fun e => P (snd e)) entries -> P (Dir entries))
    (n : node) : P n :=
  match n with
  | File => HFile
  | Dir entries =>
      HDir entries
        ((fix all (es : list (string * node)) : Forall (fun e => P (snd e)) es :=
            match es with
            | [] => Forall_nil _
            | e :: es' => Forall_cons e (node_ind P HFile HDir (snd e)) (all es')
            end) entries)
  end.

(** The file system as the scripts use it: the node a path names, if any
    (a file system is applied to a path for it), and, for the two calls that
    write, whether [os.mkdir(path)] and [open(path, 'w')] raise [OSError]
    there (no permission, a read-only or full disk, ...). *)
Record filesystem : Type := {
  lookup :> string -> option node;
  mkdir_raises : string -> bool;
  open_raises : string -> bool
}.

(** [os.mkdir(path)] *)
Definition os_mkdir (fs : filesystem) (path : string) : result unit :=
  if mkdir_raises fs path then Raise OSError else Return tt.

(** [open(path, 'w')] for a [path] inside [dir]: it raises when [dir] is a
    regular file, and when the file system says so. *)
Definition open_w (fs : filesystem) (dir path : string) : result unit :=
  match fs dir with
  | Some File => Raise OSError
  | _ => if open_raises fs path then Raise OSError else Return tt
  end.

(** [os.path.exists(path)] *)
Definition path_exists (fs : filesystem) (path : string) : bool :=
  match fs path with Some _ => true | None => false end.

Fixpoint dirnames (entries : list (string * node)) : list string :=
  match entries with
  | [] => []
  | (name, Dir _) :: rest => name :: dirnames rest
  | (_, File) :: rest => dirnames rest
  end.

Fixpoint filenames (entries : list (string * node)) : list string :=
  match entries with
  | [] => []
  | (name, File) :: rest => name :: filenames rest
  | (_, Dir _) :: rest => filenames rest
  end.

Definition walk_triple : Type := (string * list string * list string)%type.

(** [os.walk(top)], top-down: [(top, dirnames, filenames)] first, then the
    walk of every sub-directory in [dirnames] order.  A [top] that is not a
    directory yields nothing (the scandir error is ignored). *)
Fixpoint walk (top : string) (n : node) : list walk_triple :=
  match n with
  | File => []
  | Dir entries =>
      (top, dirnames entries, filenames entries)
      :: (fix below (es : list (string * node)) : list walk_triple :=
            match es with
            | [] => []
            | (name, child) :: es' =>
                match child with
                | Dir _ => walk (join top name) child ++ below es'
                | File => below es'
                end
            end) entries
  end.

Definition os_walk (fs : filesystem) (top : string) : list walk_triple :=
  match fs top with
  | Some n => walk top n
  | None => []
  end.

(** The files below a directory, as a relation: [file_under top n path name]
    when the tree [n] rooted at path [top] holds a file called [name] whose
    path is [path]. *)
Inductive file_under : string -> node -> string -> string -> Prop :=
| file_here : forall top entries name,
    In (name, File) entries ->
    file_under top (Dir entries) (join top name) name
| file_below : forall top entries d sub path name,
    In (d, Dir sub) entries ->
    file_under (join top d) (Dir sub) path name ->
    file_under top (Dir entries) path name.

(** ** The [re] module *)

(** [re_compile] is the outcome of compiling a pattern string: the compiled
    pattern, or the exception Python raises, [re.error] for a string that is
    not a regular expression and another one ([OverflowError],
    [RecursionError]) for a pattern the compiler gives up on;
    [match_span p s i j] says that the compiled pattern matches the slice
    [s[i:j]] of the subject [s] (anchors and the like see the whole of [s]). *)
Class Re : Type := {
  pattern : Type;
  re_compile : string -> result pattern;
  match_span : pattern -> string -> nat -> nat -> bool
}.

Section ReModule.
Context {re : Re}.

(** [pattern.search(s)]: some slice of [s] matches. *)
Definition pattern_search (p : pattern) (s : string) : bool :=
  existsb (fun i => existsb (fun j => match_span p s i j)
                            (seq i (S (String.length s - i))))
          (seq 0 (S (String.length s))).

(** [pattern.fullmatch(s)]: the whole of [s] matches. *)
Definition pattern_fullmatch (p : pattern) (s : string) : bool :=
  match_span p s 0 (String.length s).

(** [re.search(regex, s)] as a truth value; the pattern is compiled by the
    call itself, and what compiling raises leaves the call. *)
Definition re_search (regex s : string) : result bool :=
  match re_compile regex with
  | Raise e => Raise e
  | Return p => Return (pattern_search p s)
  end.

End ReModule.

(** ** lxml.etree *)

Inductive ErrorLevel : Type := NONE | WARNING | ERROR | FATAL.

(** An entry of an lxml error log. *)
Record LogEntry : Type := {
  line : nat;
  column : nat;
  level : ErrorLevel;
  domain_name : string;
  type_name : string;
  message : string
}.

Definition error_log : Type := list LogEntry.

Inductive parse_outcome (doc : Type) : Type :=
| Parsed (d : doc)
| NotWellFormed      (* etree.parse raises XMLSyntaxError *)
| Unreadable.        (* etree.parse raises OSError *)
Arguments Parsed {doc} d.
Arguments NotWellFormed {doc}.
Arguments Unreadable {doc}.

(** [etree_parse path] is [etree.parse(path)]; [XMLSchema d] is
    [etree.XMLSchema(d)], [None] where it raises [XMLSchemaParseError];
    [xsd_validate xsd d] is the truth value of [xsd.validate(d)] with the
    [xsd.error_log] it leaves (a copy, one per reading);
    [repr_entry] is [repr] of a log entry. *)
Class Lxml : Type := {
  doc : Type;
  schema : Type;
  etree_parse : string -> parse_outcome doc;
  XMLSchema : doc -> option schema;
  xsd_validate : schema -> doc -> bool * error_log;
  repr_entry : LogEntry -> string
}.

(** [str(error_log)]: the entries' [repr], one per line. *)
Definition str_log {lx : Lxml} (log : error_log) : string :=
  str_join nl (map repr_entry log).

Definition invalidating (e : LogEntry) : bool :=
  match level e with
  | ERROR | FATAL => true
  | NONE | WARNING => false
  end.

(** ** What the scripts do to the outside *)

Inductive event : Type :=
| SetFname (filename : string)        (* self.fname.set(filename) *)
| PrintLooking (filename : string)    (* print(f'Looking for files: {filename}') *)
| PrintInvalidRegex                   (* print('Invalid regular expression. ...') *)
| PrintNotExist (path_batch : string) (* print(f'{path_batch} does not exist.') *)
| PrintValidating (xmlname schemaname : string)
| PrintCannotLoad (schemaf : string)  (* print(f'`{schemaf}` can not be loaded.') *)
| Mkdir (path : string)               (* os.mkdir('./logs') *)
| PrintWriting (output_file : string)
| SetPrinttext (text : string)        (* self.printtext.set(text) *)
| PrintDone.

Definition is_progress (e : event) : bool :=
  match e with SetFname _ => true | _ => false end.

(** A file written by [write_errors]: its path and what it holds. *)
Record artifact : Type := {
  art_path : string;
  art_content : string
}.

(** ** class GetFiles *)

Record GetFiles : Type := {
  path_batch : string;
  regex : string;
  fname : string;
  files : list string
}.

(** [GetFiles(path_batch, regex)] *)
Definition GetFiles_init (path_batch regex : string) : GetFiles :=
  {| path_batch := path_batch; regex := regex;
     fname := EmptyString; files := [] |}.

Definition set_fname (f : string) (self : GetFiles) : GetFiles :=
  {| path_batch := path_batch self; regex := regex self;
     fname := f; files := files self |}.

Definition append_file (p : string) (self : GetFiles) : GetFiles :=
  {| path_batch := path_batch self; regex := regex self;
     fname := fname self; files := files self ++ [p] |}.

Section GetFilesCode.
Context {re : Re}.

(** The two scripts differ in [get_files] only by where
    [print('Looking for files: ...')] stands: before the test in
    [validate_xml_0_0_4.py] ([early_print = true]), inside the [if] in
    [batch_validate_xml.py] ([early_print = false]). *)
Variable early_print : bool.

(** [for filename in filenames: ...], the body of the [try]. *)
Fixpoint scan_filenames (regex dirpath : string) (names : list string)
    (self : GetFiles) : GetFiles * list event * result unit :=
  match names with
  | [] => (self, [], Return tt)
  | filename :: rest =>
      let self1 := set_fname filename self in
      let ev1 := SetFname filename
                 :: (if early_print then [PrintLooking filename] else []) in
      match re_search regex filename with
      | Raise e => (self1, ev1, Raise e)
      | Return found =>
          let self2 :=
            if found then append_file (join dirpath filename) self1
            else self1 in
          let ev2 :=
            if (found && negb early_print)%bool
            then [PrintLooking filename] else [] in
          let '(self3, ev3, r) := scan_filenames regex dirpath rest self2 in
          (self3, ev1 ++ ev2 ++ ev3, r)
      end
  end.

(** [for dirpath, dirnames, filenames in os.walk(path_batch): try ...
    except (re.error): print(...); break] *)
Fixpoint walk_loop (regex : string) (triples : list walk_triple)
    (self : GetFiles) : GetFiles * list event * result unit :=
  match triples with
  | [] => (self, [], Return tt)
  | (dirpath, _, names) :: rest =>
      match scan_filenames regex dirpath names self with
      | (self1, ev1, Return _) =>
          let '(self2, ev2, r) := walk_loop regex rest self1 in
          (self2, ev1 ++ ev2, r)
      | (self1, ev1, Raise re_error) =>
          (self1, ev1 ++ [PrintInvalidRegex], Return tt)
      | (self1, ev1, Raise e) => (self1, ev1, Raise e)
      end
  end.

(** [GetFiles.get_files(self, path_batch, regex)]; what it returns is
    [self.files] as it stands when the call ends. *)
Definition get_files (fs : filesystem) (path_batch regex : string)
    (self : GetFiles) : GetFiles * list event * result (list string) :=
  if path_exists fs path_batch then
    match walk_loop regex (os_walk fs path_batch) self with
    | (self1, ev, Return _) => (self1, ev, Return (files self1))
    | (self1, ev, Raise e) => (self1, ev, Raise e)
    end
  else (self, [PrintNotExist path_batch], Return (files self)).

End GetFilesCode.

(** ** The csv module, as [write_errors] configures it *)

(** [csv.writer] with the comma as delimiter, the double quote as quote
    character and [csv.QUOTE_MINIMAL]: a field is quoted when it holds the
    delimiter, the quote character or a character of the line terminator; a
    quote inside is doubled. *)
Definition csv_special (c : ascii) : bool :=
  (Ascii.eqb c ","%char || Ascii.eqb c DQUOTE || Ascii.eqb c CR || Ascii.eqb c LF)%bool.

Fixpoint needs_quotes (s : string) : bool :=
  match s with
  | EmptyString => false
  | String c r => (csv_special c || needs_quotes r)%bool
  end.

Fixpoint double_quotes (s : string) : string :=
  match s with
  | EmptyString => EmptyString
  | String c r =>
      if Ascii.eqb c DQUOTE then String DQUOTE (String DQUOTE (double_quotes r))
      else String c (double_quotes r)
  end.

Definition csv_field (s : string) : string :=
  if needs_quotes s then String DQUOTE (double_quotes s ++ String DQUOTE EmptyString)
  else s.

(** [csv_writer.writerow(fields)]: the text it writes (a lone empty field is
    quoted; the line ends in CR LF). *)
Definition writerow (fields : list string) : string :=
  match fields with
  | [EmptyString] => String DQUOTE (String DQUOTE (String CR nl))
  | _ => str_join "," (map csv_field fields) ++ String CR nl
  end.

(** ** batch_validate_xml.py *)

Module batch_validate_xml.

(** [validation_errors]: a dict from base filename to [[state, error_log]],
    in insertion order. *)
Definition dict : Type := list (string * (string * error_log)).

(** [d[k] = v]: a key already present keeps its place and takes the new
    value, a new key goes last. *)
Fixpoint dict_set (k : string) (v : string * error_log) (d : dict) : dict :=
  match d with
  | [] => [(k, v)]
  | (k', v') :: rest =>
      if String.eqb k' k then (k', v) :: rest
      else (k', v') :: dict_set k v rest
  end.

Section Code.
Context {re : Re} {lx : Lxml}.

Definition get_files := get_files false.

(** The body of [for xmlfile in files:] in [validate_xml]: the key and the
    [[state, xsd.error_log]] it stores, or the exception of [etree.parse]. *)
Definition validate_one (xsd : schema) (xmlfile : string)
    : result (string * (string * error_log)) :=
  match etree_parse xmlfile with
  | Parsed d =>
      let '(valid, log) := xsd_validate xsd d in
      let state := if valid then "valid" else "invalid" in
      Return (basename xmlfile, (state, log))
  | NotWellFormed => Raise XMLSyntaxError
  | Unreadable => Raise OSError
  end.

(** [for xmlfile in files: ...]; the dict built so far survives an
    exception. *)
Fixpoint validate_files (xsd : schema) (schemaf : string) (files : list string)
    (validation_errors : dict) : dict * list event * result unit :=
  match files with
  | [] => (validation_errors, [], Return tt)
  | xmlfile :: rest =>
      let ev := PrintValidating (basename xmlfile) (basename schemaf) in
      match validate_one xsd xmlfile with
      | Return (key, value) =>
          let '(ve, evs, r) :=
            validate_files xsd schemaf rest
              (dict_set key value validation_errors) in
          (ve, ev :: evs, r)
      | Raise e => (validation_errors, [ev], Raise e)
      end
  end.

(** The body of the [try] of [validate_xml]. *)
Definition validate_try (files : list string) (schemaf : string)
    (validation_errors : dict) : dict * list event * result unit :=
  match etree_parse schemaf with
  | Parsed sd =>
      match XMLSchema sd with
      | Some xsd => validate_files xsd schemaf files validation_errors
      | None => (validation_errors, [], Raise XMLSchemaParseError)
      end
  | NotWellFormed => (validation_errors, [], Raise XMLSyntaxError)
  | Unreadable => (validation_errors, [], Raise OSError)
  end.

(** [validate_xml(files, schemaf)] *)
Definition validate_xml (files : list string) (schemaf : string)
    : list event * result dict :=
  match validate_try files schemaf [] with
  | (ve, ev, Return _) => (ev, Return ve)
  | (ve, ev, Raise OSError) => (ev ++ [PrintCannotLoad schemaf], Return ve)
  | (_, ev, Raise e) => (ev, Raise e)
  end.

(** The rows of the CSV report after the header. *)
Definition csv_row (item : string * (string * error_log)) : string :=
  let '(obj_id, (state, log)) := item in
  writerow [obj_id; state; str_log log].

(** [write_errors(validation_errors, path_batch, files)]; [strftime] is the
    clock, read through [time.strftime(format)].  Creating [./logs] and opening
    the report can raise [OSError], which nothing catches; the artifact is
    what the [with] block has written when it is left. *)
Definition write_errors (fs : filesystem) (strftime : string -> string)
    (validation_errors : dict) (path_batch : string) (files : list string)
    : list event * result artifact :=
  match (if path_exists fs "./logs" then Return tt else os_mkdir fs "./logs") with
  | Raise e => ([], Raise e)
  | Return _ =>
      let ev_mkdir := if path_exists fs "./logs" then [] else [Mkdir "./logs"] in
      let output_name :=
        ("validate_xml-" ++ basename path_batch ++ "-"
         ++ strftime "%Y%m%d_%H%M%S" ++ ".csv")%string in
      let output_file := join "./logs" output_name in
      let rows :=
        if (0 <? List.length validation_errors)%nat
        then String.concat EmptyString (map csv_row validation_errors)
        else EmptyString in
      match open_w fs "./logs" output_file with
      | Raise e => (ev_mkdir ++ [PrintWriting output_file], Raise e)
      | Return _ =>
          (ev_mkdir ++ [PrintWriting output_file],
           Return {| art_path := output_file;
                     art_content :=
                       writerow ["filename"; "valid"; "error"] ++ rows |})
      end
  end.

(** [MainApplication.validate(self)]: the VALIDATE button.  [var], [re1] and
    [sch_loc] are the current values of the three entry fields, [self] the
    [GetFiles] object made in [__init__]. *)
Definition validate (fs : filesystem) (strftime : string -> string)
    (self : GetFiles) (var re1 sch_loc : string)
    : GetFiles * list event * result artifact :=
  let ev0 := [SetPrinttext "Searching for files"] in
  match get_files fs var re1 self with
  | (self1, ev1, Raise e) => (self1, ev0 ++ ev1, Raise e)
  | (self1, ev1, Return _) =>
      let ev1' := ev0 ++ ev1 ++ [SetPrinttext "Validating files"] in
      match validate_xml (files self1) sch_loc with
      | (ev2, Raise e) => (self1, ev1' ++ ev2, Raise e)
      | (ev2, Return validation_errors) =>
          let ev2' := ev1' ++ ev2 ++ [SetPrinttext "Writing log file."] in
          match write_errors fs strftime validation_errors var (files self1) with
          | (ev3, Raise e) => (self1, ev2' ++ ev3, Raise e)
          | (ev3, Return art) =>
              (self1, ev2' ++ ev3 ++ [SetPrinttext "DONE!"; PrintDone],
               Return art)
          end
      end
  end.

End Code.
End batch_validate_xml.

(** ** validate_xml_0_0_4.py *)

Module validate_xml_0_0_4.
Section Code.
Context {re : Re} {lx : Lxml}.

Definition get_files := get_files true.

(** The body of [for xmlfile in files:] in [validate_xml]: the
    [xsd.error_log] it appends, or the exception of [etree.parse]. *)
Definition validate_one (xsd : schema) (xmlfile : string) : result error_log :=
  match etree_parse xmlfile with
  | Parsed d => Return (snd (xsd_validate xsd d))
  | NotWellFormed => Raise XMLSyntaxError
  | Unreadable => Raise OSError
  end.

(** [for xmlfile in files: ...]; here [validation_errors] is a list of
    error logs. *)
Fixpoint validate_files (xsd : schema) (xsdschema : string) (files : list string)
    (validation_errors : list error_log)
    : list error_log * list event * result unit :=
  match files with
  | [] => (validation_errors, [], Return tt)
  | xmlfile :: rest =>
      let ev := PrintValidating (basename xmlfile) (basename xsdschema) in
      match validate_one xsd xmlfile with
      | Return log =>
          let '(ve, evs, r) :=
            validate_files xsd xsdschema rest (validation_errors ++ [log]) in
          (ve, ev :: evs, r)
      | Raise e => (validation_errors, [ev], Raise e)
      end
  end.

Definition validate_try (files : list string) (xsdschema : string)
    (validation_errors : list error_log)
    : list error_log * list event * result unit :=
  match etree_parse xsdschema with
  | Parsed sd =>
      match XMLSchema sd with
      | Some xsd => validate_files xsd xsdschema files validation_errors
      | None => (validation_errors, [], Raise XMLSchemaParseError)
      end
  | NotWellFormed => (validation_errors, [], Raise XMLSyntaxError)
  | Unreadable => (validation_errors, [], Raise OSError)
  end.

(** [validate_xml(files, xsdschema)] *)
Definition validate_xml (files : list string) (xsdschema : string)
    : list event * result (list error_log) :=
  match validate_try files xsdschema [] with
  | (ve, ev, Return _) => (ev, Return ve)
  | (ve, ev, Raise OSError) => (ev ++ [PrintCannotLoad xsdschema], Return ve)
  | (_, ev, Raise e) => (ev, Raise e)
  end.

(** The two numbers of the trailing summary, as the script computes them. *)
Definition validated_succesfully (validation_errors : list error_log)
    (files : list string) : Z :=
  Z.of_nat (List.length files) - Z.of_nat (List.length validation_errors).

Definition validation_error_count (validation_errors : list error_log) : Z :=
  Z.of_nat (List.length validation_errors).

(** The continuation line of the f-string keeps its indentation. *)
Definition summary_indent : string := "                       ".

Definition summary (validation_errors : list error_log) (files : list string)
    : string :=
  nl ++ "Validated succesfully: "
     ++ str_int (validated_succesfully validation_errors files)
     ++ summary_indent
     ++ nl ++ "Validation errors: "
     ++ str_int (validation_error_count validation_errors).

Definition error_block (error : error_log) : string :=
  if (0 <? List.length error)%nat then str_log error ++ nl ++ nl else EmptyString.

(** [write_errors(validation_errors, path_batch, files)] *)
Definition write_errors (fs : filesystem) (strftime : string -> string)
    (validation_errors : list error_log) (path_batch : string)
    (files : list string) : list event * result artifact :=
  match (if path_exists fs "./logs" then Return tt else os_mkdir fs "./logs") with
  | Raise e => ([], Raise e)
  | Return _ =>
      let ev_mkdir := if path_exists fs "./logs" then [] else [Mkdir "./logs"] in
      let output_name :=
        ("validate_xml-" ++ basename path_batch ++ "-"
         ++ strftime "%Y%m%d_%H%M%S" ++ ".txt")%string in
      let output_file := join "./logs" output_name in
      match open_w fs "./logs" output_file with
      | Raise e => (ev_mkdir ++ [PrintWriting output_file], Raise e)
      | Return _ =>
          (ev_mkdir ++ [PrintWriting output_file],
           Return
             {| art_path := output_file;
                art_content :=
                  (strftime ("[validate_xml log generated %Y%m%dT%H:%M:%S]"
                             ++ nl ++ nl)
                   ++ String.concat EmptyString (map error_block validation_errors)
                   ++ summary validation_errors files)%string |})
      end
  end.

(** [MainApplication.validate(self)] *)
Definition validate (fs : filesystem) (strftime : string -> string)
    (self : GetFiles) (var re1 sch_loc : string)
    : GetFiles * list event * result artifact :=
  match get_files fs var re1 self with
  | (self1, ev1, Raise e) => (self1, ev1, Raise e)
  | (self1, ev1, Return _) =>
      match validate_xml (files self1) sch_loc with
      | (ev2, Raise e) => (self1, ev1 ++ ev2, Raise e)
      | (ev2, Return validation_errors) =>
          match write_errors fs strftime validation_errors var (files self1) with
          | (ev3, Raise e) => (self1, ev1 ++ ev2 ++ ev3, Raise e)
          | (ev3, Return art) =>
              (self1, ev1 ++ ev2 ++ ev3 ++ [PrintDone], Return art)
          end
      end
  end.

End Code.
End validate_xml_0_0_4.

(** ** Vocabulary of the statements *)

(** The files [os.walk] lists: [listed top n path name] when some triple of
    the walk holds the file name [name], [path] being its joined path. *)
Definition listed (top : string) (n : node) (path name : string) : Prop :=
  exists dirpath dns fns,
    In (dirpath, dns, fns) (walk top n) /\ In name fns /\ path = join dirpath name.

(** The first file name a walk meets. *)
Fixpoint first_filename (triples : list walk_triple) : option string :=
  match triples with
  | [] => None
  | (_, _, []) :: rest => first_filename rest
  | (_, _, f :: _) :: _ => Some f
  end.

Section Vocabulary.
Context {re : Re}.

(** What one directory and a whole walk contribute under a pattern. *)
Definition matches_in (p : pattern) (t : walk_triple) : list string :=
  let '(dirpath, _, names) := t in
  map (join dirpath) (filter (pattern_search p) names).

Definition found (p : pattern) (triples : list walk_triple) : list string :=
  flat_map (matches_in p) triples.

(** Repeated calls on one instance: each call comes with the file system as
    it is at that moment, the root and the pattern. *)
Definition call : Type := (filesystem * string * string)%type.

Definition get_files_call (early_print : bool) (c : call)
    (self : GetFiles) : GetFiles * list event * result (list string) :=
  let '(fs, path, regex) := c in get_files early_print fs path regex self.

Fixpoint after_calls (early_print : bool) (calls : list call)
    (self : GetFiles) : GetFiles :=
  match calls with
  | [] => self
  | c :: rest =>
      after_calls early_print rest (fst (fst (get_files_call early_print c self)))
  end.

(** The matches a call adds, read off the tree and the pattern: those of a
    walk of the root under the compiled pattern, and none when the root does
    not exist or the pattern does not compile. *)
Definition call_matches (c : call) : list string :=
  let '(fs, path, regex) := c in
  match fs path with
  | None => []
  | Some root =>
      match re_compile regex with
      | Return p => found p (walk path root)
      | Raise _ => []
      end
  end.

End Vocabulary.

(** A file system on which the report can be written: [./logs] is not a
    regular file, and neither [os.mkdir] nor [open] raises. *)
Definition writable (fs : filesystem) : Prop :=
  fs "./logs" <> Some File
  /\ (forall path, mkdir_raises fs path = false)
  /\ (forall path, open_raises fs path = false).

(** A target file that [etree.parse] reads as a document. *)
Definition parses {lx : Lxml} (xmlfile : string) : Prop :=
  exists d, etree_parse xmlfile = Parsed d.

(** An entry of the dict whose status is one of the two the script writes. *)
Definition known_state (item : string * (string * error_log)) : Prop :=
  fst (snd item) = "valid" \/ fst (snd item) = "invalid".

(** The status and the log the script derives from a validation. *)
Definition verdict {lx : Lxml} (xsd : schema) (d : doc) : string * error_log :=
  (if fst (xsd_validate xsd d) then "valid" else "invalid",
   snd (xsd_validate xsd d)).

(** ** A small regular-expression engine

    The fragment of Python's pattern syntax used in the examples: literal
    characters, [.], a postfix [*], the anchors [^] and [$], and a backslash
    before a punctuation character.  A [*] with nothing to repeat and a
    trailing backslash are errors, as in Python; the other metacharacters are
    outside the fragment and rejected too. *)

Module MiniRe.

Inductive atom : Type := Lit (c : ascii) | AnyChar.
Inductive token : Type := TBol | TEol | TAtom (a : atom) | TStar.
Inductive item : Type := Bol | Eol | One (a : atom) | Star (a : atom).

Definition is_alnum (c : ascii) : bool :=
  let n := nat_of_ascii c in
  (Nat.leb 48 n && Nat.leb n 57 || Nat.leb 65 n && Nat.leb n 90
   || Nat.leb 97 n && Nat.leb n 122)%bool.

Definition outside_fragment (c : ascii) : bool :=
  existsb (Ascii.eqb c) (list_ascii_of_string "()[]{}|+?").

Fixpoint tokens (s : string) : option (list token) :=
  match s with
  | EmptyString => Some []
  | String c r =>
      if Ascii.eqb c "\"%char then
        match r with
        | EmptyString => None
        | String d r' =>
            if is_alnum d then None
            else option_map (cons (TAtom (Lit d))) (tokens r')
        end
      else if outside_fragment c then None
      else
        let t :=
          if Ascii.eqb c "^"%char then TBol
          else if Ascii.eqb c "$"%char then TEol
          else if Ascii.eqb c "*"%char then TStar
          else if Ascii.eqb c "."%char then TAtom AnyChar
          else TAtom (Lit c) in
        option_map (cons t) (tokens r)
  end.

Fixpoint items (ts : list token) : option (list item) :=
  match ts with
  | [] => Some []
  | TStar :: _ => None
  | TAtom a :: TStar :: rest => option_map (cons (Star a)) (items rest)
  | TAtom a :: rest => option_map (cons (One a)) (items rest)
  | TBol :: TStar :: _ => None
  | TBol :: rest => option_map (cons Bol) (items rest)
  | TEol :: TStar :: _ => None
  | TEol :: rest => option_map (cons Eol) (items rest)
  end.

Definition compile (s : string) : option (list item) :=
  match tokens s with
  | Some ts => items ts
  | None => None
  end.

Definition atom_ok (a : atom) (c : ascii) : bool :=
  match a with
  | Lit l => Ascii.eqb l c
  | AnyChar => negb (Ascii.eqb c LF)
  end.

(** [$] matches at the end of the subject and before a final newline. *)
Definition at_eol (rest : list ascii) : bool :=
  match rest with
  | [] => true
  | [c] => Ascii.eqb c LF
  | _ => false
  end.

(** [matches p bol rest n]: the items [p] match exactly the first [n]
    characters of [rest]; [bol] says that [rest] is the whole subject. *)
Fixpoint matches (p : list item) (bol : bool) (rest : list ascii) (n : nat)
    : bool :=
  match p with
  | [] => Nat.eqb n 0
  | Bol :: p' => bol && matches p' bol rest n
  | Eol :: p' => at_eol rest && matches p' bol rest n
  | One a :: p' =>
      match rest, n with
      | c :: rest', S n' => atom_ok a c && matches p' false rest' n'
      | _, _ => false
      end
  | Star a :: p' =>
      (fix star (bol : bool) (rest : list ascii) (n : nat) : bool :=
         matches p' bol rest n
         || match rest, n with
            | c :: rest', S n' => atom_ok a c && star false rest' n'
            | _, _ => false
            end) bol rest n
  end%bool.

Definition span (p : list item) (s : string) (i j : nat) : bool :=
  (Nat.leb i j && Nat.leb j (String.length s)
   && matches p (Nat.eqb i 0) (skipn i (list_ascii_of_string s)) (j - i))%bool.

(** A repeat count of 2^32 makes Python's compiler raise [OverflowError];
    the one pattern of the examples that does so is recognised as such. *)
Definition overflows (s : string) : bool := String.eqb s "a{4294967296}".

Definition engine : Re :=
  {| pattern := list item;
     re_compile := fun s =>
       if overflows s then Raise OverflowError
       else match compile s with
            | Some p => Return p
            | None => Raise re_error
            end;
     match_span := span |}.

End MiniRe.

(** ** A batch to run the scripts on *)

Module Fixture.

(** A parsed document: whether it is a schema, and what a validation of it
    reports. *)
Record toydoc : Type := {
  is_xsd : bool;
  violations : error_log
}.

Definition level_name (l : ErrorLevel) : string :=
  match l with
  | NONE => "NONE" | WARNING => "WARNING" | ERROR => "ERROR" | FATAL => "FATAL"
  end.

Definition order_error : LogEntry :=
  {| line := 3; column := 0; level := ERROR;
     domain_name := "SCHEMASV"; type_name := "SCHEMAV_ELEMENT_CONTENT";
     message := "Element 'title': This element is not expected." |}.

Definition good_doc : toydoc := {| is_xsd := false; violations := [] |}.
Definition bad_order_doc : toydoc :=
  {| is_xsd := false; violations := [order_error] |}.
Definition schema_doc : toydoc := {| is_xsd := true; violations := [] |}.

(** The files of the batch as [etree.parse] finds them; a path with no file
    cannot be read. *)
Definition parse (path : string) : parse_outcome toydoc :=
  if String.eqb path "/schemas/mets.xsd" then Parsed schema_doc
  else if String.eqb path "/schemas/broken.xsd" then NotWellFormed
  else if String.eqb path "/schemas/notes.xml" then Parsed good_doc
  else if String.eqb path "/batch/a.xml" then Parsed good_doc
  else if String.eqb path "/batch/b.xml" then Parsed bad_order_doc
  else if String.eqb path "/batch/c.xml" then NotWellFormed
  else if String.eqb path "/batch/vol1/x.xml" then Parsed good_doc
  else if String.eqb path "/batch/vol2/x.xml" then Parsed bad_order_doc
  else if String.eqb path "/clean/a.xml" then Parsed good_doc
  else Unreadable.

Definition lxml : Lxml :=
  {| doc := toydoc;
     schema := unit;
     etree_parse := parse;
     XMLSchema := fun d => if is_xsd d then Some tt else None;
     xsd_validate := fun _ d =>
       (forallb (fun e => negb (invalidating e)) (violations d), violations d);
     repr_entry := fun e =>
       ("<string>:" ++ str_int (Z.of_nat (line e)) ++ ":"
        ++ str_int (Z.of_nat (column e)) ++ ":" ++ level_name (level e) ++ ":"
        ++ domain_name e ++ ":" ++ type_name e ++ ": " ++ message e)%string |}.

Definition batch : node :=
  Dir [("a.xml", File);
       ("vol1", Dir [("x.xml", File); ("x.xml.bak", File)]);
       ("notes.txt", File);
       ("vol2", Dir [("x.xml", File)])].

Definition clean : node := Dir [("a.xml", File)].

Definition fs : filesystem :=
  {| lookup := fun path =>
       if String.eqb path "/batch" then Some batch
       else if String.eqb path "/clean" then Some clean
       else if String.eqb path "/empty" then Some (Dir [])
       else None;
     mkdir_raises := fun _ => false;
     open_raises := fun _ => false |}.

(** The same tree, with a regular file called [logs] in the working
    directory. *)
Definition fs_logs_file : filesystem :=
  {| lookup := fun path =>
       if String.eqb path "./logs" then Some File else fs path;
     mkdir_raises := fun _ => false;
     open_raises := fun _ => false |}.

Definition clock (format : string) : string :=
  if String.eqb format "%Y%m%d_%H%M%S" then "20200327_101500"
  else ("[validate_xml log generated 20200327T10:15:00]" ++ nl ++ nl)%string.

Definition xml_regex : string := "^.*\.xml$".

Definition fresh (path : string) : GetFiles := GetFiles_init path xml_regex.

(** The [GetFiles] object after a first press of VALIDATE on [/batch]. *)
Definition used : GetFiles :=
  fst (fst (get_files (re := MiniRe.engine) false fs "/batch" xml_regex
              (fresh "/batch"))).

End Fixture.

(** ** A second batch: two files side by side, one valid, one not *)

Module Fixture2.

Definition batch : node := Dir [("a.xml", File); ("b.xml", File)].

Definition fs : filesystem :=
  {| lookup := fun path =>
       if String.eqb path "/batch" then Some batch else None;
     mkdir_raises := fun _ => false;
     open_raises := fun _ => false |}.

Definition xml_pattern : list MiniRe.item :=
  [MiniRe.Bol; MiniRe.Star MiniRe.AnyChar;
   MiniRe.One (MiniRe.Lit "."); MiniRe.One (MiniRe.Lit "x");
   MiniRe.One (MiniRe.Lit "m"); MiniRe.One (MiniRe.Lit "l"); MiniRe.Eol].

Definition docs : list Fixture.toydoc :=
  [Fixture.good_doc; Fixture.bad_order_doc].

(** The [GetFiles] object after a first press of VALIDATE on [/batch]. *)
Definition found_instance : GetFiles :=
  {| path_batch := ""; regex := Fixture.xml_regex; fname := "b.xml";
     files := ["/batch/a.xml"; "/batch/b.xml"] |}.

End Fixture2.

(** ** A schema engine that takes warnings for failures

    An engine whose [validate] answers false as soon as its log holds an
    entry, a warning included. *)

Module Fixture3.

Definition deprecation_warning : LogEntry :=
  {| line := 2; column := 0; level := WARNING;
     domain_name := "SCHEMASV"; type_name := "SCHEMAV_MISC";
     message := "Element 'note': This element is deprecated." |}.

Definition warned_doc : Fixture.toydoc :=
  {| Fixture.is_xsd := false; Fixture.violations := [deprecation_warning] |}.

Definition parse (path : string) : parse_outcome Fixture.toydoc :=
  if String.eqb path "/batch/w.xml" then Parsed warned_doc
  else Fixture.parse path.

Definition lxml : Lxml :=
  {| doc := Fixture.toydoc;
     schema := unit;
     etree_parse := parse;
     XMLSchema := fun d => if Fixture.is_xsd d then Some tt else None;
     xsd_validate := fun _ d =>
       (match Fixture.violations d with [] => true | _ => false end,
        Fixture.violations d);
     repr_entry := fun e => message e |}.

End Fixture3.

(** ** Vocabulary of the further properties *)

(** The file names of a walk, in the order they are visited. *)
Definition visited (triples : list walk_triple) : list string :=
  flat_map (fun t : walk_triple => snd t) triples.

(** No file name of the walk holds a separator. *)
Definition plain_names (triples : list walk_triple) : Prop :=
  Forall (fun f => contains_sep f = false) (visited triples).

Section FurtherVocabulary.
Context {re : Re} {lx : Lxml}.

(** What [get_files] does to the outside for one file name. *)
Definition file_events (early_print : bool) (p : pattern) (f : string)
    : list event :=
  SetFname f
  :: (if (early_print || pattern_search p f)%bool then [PrintLooking f] else []).

(** The file names of a walk that a pattern finds. *)
Definition matched_names (p : pattern) (triples : list walk_triple)
    : list string :=
  filter (pattern_search p) (visited triples).

(** [d.get(k)] *)
Fixpoint dict_get (k : string) (d : batch_validate_xml.dict)
    : option (string * error_log) :=
  match d with
  | [] => None
  | (k', v) :: rest => if String.eqb k' k then Some v else dict_get k rest
  end.

(** The keys of [keys] in the order of their first occurrence, those of
    [seen] left out. *)
Fixpoint first_occurrences (seen keys : list string) : list string :=
  match keys with
  | [] => []
  | k :: rest =>
      if existsb (String.eqb k) seen then first_occurrences seen rest
      else k :: first_occurrences (k :: seen) rest
  end.

(** The verdict on the last of the files that bears the base name [k]. *)
Fixpoint last_verdict (xsd : schema) (k : string) (pairs : list (string * doc))
    : option (string * error_log) :=
  match pairs with
  | [] => None
  | (f, d) :: rest =>
      match last_verdict xsd k rest with
      | Some v => Some v
      | None => if String.eqb (basename f) k then Some (verdict xsd d) else None
      end
  end.

(** The dict after the verdicts on [pairs] are stored in turn, each under
    the base name of its file. *)
Fixpoint record_all (xsd : schema) (pairs : list (string * doc))
    (d : batch_validate_xml.dict) : batch_validate_xml.dict :=
  match pairs with
  | [] => d
  | (f, x) :: rest =>
      record_all xsd rest
        (batch_validate_xml.dict_set (basename f) (verdict xsd x) d)
  end.

(** The row of the CSV report for a file name and its document. *)
Definition report_row (xsd : schema) (nd : string * doc) : string :=
  writerow [fst nd; fst (verdict xsd (snd nd)); str_log (snd (verdict xsd (snd nd)))].

(** What an exception that leaves [validate_xml] tells. *)
Definition raise_cause (xmlfiles : list string) (schemaf : string) (e : exn)
    : Prop :=
  (e = XMLSyntaxError
   /\ (etree_parse schemaf = NotWellFormed
       \/ exists f, In f xmlfiles /\ etree_parse f = NotWellFormed))
  \/ (e = XMLSchemaParseError
      /\ exists sd, etree_parse schemaf = Parsed sd /\ XMLSchema sd = None).

(** The block the text report holds for a log that is not empty. *)
Definition log_block (log : error_log) : string :=
  (str_log log ++ nl ++ nl)%string.

Definition nonempty_log (log : error_log) : bool :=
  (0 <? List.length log)%nat.

End FurtherVocabulary.

(** * Properties *)

(** ** os.path and os.walk *)

Lemma walk_Dir (top : string) (entries : list (string * node)) :
  walk top (Dir entries) =
  (top, dirnames entries, filenames entries)
  :: flat_map (fun e => walk (join top (fst e)) (snd e)) entries.
Proof.
  simpl. f_equal.
  induction entries as [|[name child] es IH]; [reflexivity|].
  destruct child; simpl; rewrite IH; reflexivity.
Qed.

Lemma in_filenames (name : string) (entries : list (string * node)) :
  In name (filenames entries) <-> In (name, File) entries.
Proof.
  induction entries as [|[n' child] es IH]; simpl; [tauto|].
  destruct child; simpl; rewrite IH; split.
  - intros [->|H]; [left; reflexivity | right; exact H].
  - intros [H|H]; [left; congruence | right; exact H].
  - intros H; right; exact H.
  - intros [H|H]; [discriminate | exact H].
Qed.

Lemma listed_file_under (n : node) :
  forall top path name, listed top n path name -> file_under top n path name.
Proof.
  induction n as [|entries IH] using node_ind;
    intros top path name (dp & dns & fns & Hin & Hname & ->).
  - destruct Hin.
  - rewrite walk_Dir in Hin. destruct Hin as [Heq|Hin].
    + inversion Heq; subst. apply file_here, in_filenames, Hname.
    + apply in_flat_map in Hin. destruct Hin as ([d child] & He & Hin).
      simpl in Hin. rewrite Forall_forall in IH.
      destruct child as [|sub]; [destruct Hin|].
      apply file_below with (d := d) (sub := sub); [exact He|].
      apply (IH _ He). exists dp, dns, fns. auto.
Qed.

Lemma file_under_listed (top : string) (n : node) (path name : string) :
  file_under top n path name -> listed top n path name.
Proof.
  induction 1 as [top entries name Hin | top entries d sub path name Hin _ IH].
  - exists top, (dirnames entries), (filenames entries).
    rewrite walk_Dir. split; [left; reflexivity|].
    split; [apply in_filenames, Hin | reflexivity].
  - destruct IH as (dp & dns & fns & Hw & Hname & ->).
    exists dp, dns, fns. split; [|auto].
    rewrite walk_Dir. right. apply in_flat_map.
    exists (d, Dir sub). split; [exact Hin | exact Hw].
Qed.

(** ** re.search *)

Section SearchFacts.
Context {re : Re}.

Lemma pattern_search_iff (p : pattern) (s : string) :
  pattern_search p s = true <->
  exists i j, i <= j /\ j <= String.length s /\ match_span p s i j = true.
Proof.
  unfold pattern_search. rewrite existsb_exists. split.
  - intros (i & Hi & H). apply existsb_exists in H. destruct H as (j & Hj & H).
    apply in_seq in Hi, Hj. exists i, j. repeat split; [lia | lia | exact H].
  - intros (i & j & Hij & Hj & H). exists i. split; [apply in_seq; lia|].
    apply existsb_exists. exists j. split; [apply in_seq; lia | exact H].
Qed.

End SearchFacts.

(** ** GetFiles.get_files *)

Section GetFilesFacts.
Context {re : Re}.
Variable early_print : bool.

Lemma scan_filenames_valid (regex dirpath : string) (p : pattern) :
  re_compile regex = Return p ->
  forall names self,
  exists self' ev,
    scan_filenames early_print regex dirpath names self = (self', ev, Return tt)
    /\ files self' =
       files self ++ map (join dirpath) (filter (pattern_search p) names).
Proof.
  intros Hp names. induction names as [|f rest IH]; intros self; simpl.
  - exists self, []. rewrite app_nil_r. auto.
  - unfold re_search. rewrite Hp.
    destruct (pattern_search p f) eqn:Hf.
    + destruct (IH (append_file (join dirpath f) (set_fname f self)))
        as (self' & ev & Heq & Hfiles).
      rewrite Heq. eexists _, _. split; [reflexivity|].
      rewrite Hfiles. simpl. rewrite <- app_assoc. reflexivity.
    + destruct (IH (set_fname f self)) as (self' & ev & Heq & Hfiles).
      rewrite Heq. eexists _, _. split; [reflexivity|].
      rewrite Hfiles. reflexivity.
Qed.

Lemma walk_loop_valid (regex : string) (p : pattern) :
  re_compile regex = Return p ->
  forall triples self,
  exists self' ev,
    walk_loop early_print regex triples self = (self', ev, Return tt)
    /\ files self' = files self ++ found p triples.
Proof.
  intros Hp triples.
  induction triples as [|[[dirpath dns] names] rest IH]; intros self; simpl.
  - exists self, []. rewrite app_nil_r. auto.
  - destruct (scan_filenames_valid regex dirpath p Hp names self)
      as (self1 & ev1 & Heq1 & Hf1).
    rewrite Heq1.
    destruct (IH self1) as (self2 & ev2 & Heq2 & Hf2).
    rewrite Heq2. eexists _, _. split; [reflexivity|].
    rewrite Hf2, Hf1, <- app_assoc. reflexivity.
Qed.

Lemma in_found (p : pattern) (top : string) (n : node) (path : string) :
  In path (found p (walk top n)) <->
  exists name, file_under top n path name /\ pattern_search p name = true.
Proof.
  unfold found. rewrite in_flat_map. split.
  - intros ([[dp dns] fns] & Hw & Hin). simpl in Hin.
    apply in_map_iff in Hin. destruct Hin as (name & <- & Hin).
    apply filter_In in Hin. destruct Hin as [Hin Hs].
    exists name. split; [|exact Hs].
    apply listed_file_under. exists dp, dns, fns. auto.
  - intros (name & Hu & Hs).
    apply file_under_listed in Hu. destruct Hu as (dp & dns & fns & Hw & Hin & ->).
    exists (dp, dns, fns). split; [exact Hw|]. simpl.
    apply in_map, filter_In. auto.
Qed.

(** When compiling the pattern raises, the walk ends at the first file name:
    a [re.error] is caught and reported, any other exception leaves the
    loop; no path is appended. *)
Lemma walk_loop_raise (regex : string) (e : exn) :
  re_compile regex = Raise e ->
  forall triples self,
    walk_loop early_print regex triples self =
    match first_filename triples with
    | Some f =>
        match e with
        | re_error =>
            (set_fname f self,
             SetFname f :: (if early_print then [PrintLooking f] else [])
             ++ [PrintInvalidRegex],
             Return tt)
        | _ =>
            (set_fname f self,
             SetFname f :: (if early_print then [PrintLooking f] else []),
             Raise e)
        end
    | None => (self, [], Return tt)
    end.
Proof.
  intros Hp triples.
  induction triples as [|[[dirpath dns] names] rest IH]; intros self.
  - reflexivity.
  - destruct names as [|f names].
    + simpl. rewrite IH. destruct (first_filename rest); [|reflexivity].
      destruct e; reflexivity.
    + simpl. unfold re_search. rewrite Hp. destruct e; reflexivity.
Qed.

Lemma walk_loop_invalid (regex : string) :
  re_compile regex = Raise re_error ->
  forall triples self,
    walk_loop early_print regex triples self =
    match first_filename triples with
    | Some f =>
        (set_fname f self,
         SetFname f :: (if early_print then [PrintLooking f] else [])
         ++ [PrintInvalidRegex],
         Return tt)
    | None => (self, [], Return tt)
    end.
Proof.
  intros Hp triples self. apply (walk_loop_raise regex re_error Hp).
Qed.

(** What a call does to the instance's list, and how it ends: it returns the
    list, unless compiling the pattern raised something else than
    [re.error]. *)
Lemma get_files_outcome (fs : filesystem) (path regex : string) (self : GetFiles) :
  exists self' ev r,
    get_files early_print fs path regex self = (self', ev, r)
    /\ files self' = files self ++ call_matches (fs, path, regex)
    /\ (r = Return (files self')
        \/ exists e, r = Raise e /\ e <> re_error /\ re_compile regex = Raise e).
Proof.
  unfold get_files, path_exists, os_walk, call_matches.
  destruct (lookup fs path) as [root|].
  - destruct (re_compile regex) as [p|e] eqn:Hp.
    + destruct (walk_loop_valid regex p Hp (walk path root) self)
        as (s & ev & Heq & Hf).
      rewrite Heq. eexists _, _, _. split; [reflexivity|]. split; [exact Hf|].
      left. reflexivity.
    + rewrite (walk_loop_raise regex e Hp).
      destruct (first_filename (walk path root)) as [f|].
      * destruct e; eexists _, _, _; (split; [reflexivity|]);
          (split; [simpl; rewrite app_nil_r; reflexivity|]);
          try (left; reflexivity);
          right; eexists; (split; [reflexivity|]); (split; [discriminate | reflexivity]).
      * eexists _, _, _. split; [reflexivity|].
        split; [simpl; rewrite app_nil_r; reflexivity|]. left. reflexivity.
  - eexists _, _, _. split; [reflexivity|].
    split; [simpl; rewrite app_nil_r; reflexivity|]. left. reflexivity.
Qed.

(** [get_files] returns whenever compiling the pattern raises nothing but
    [re.error]. *)
Lemma get_files_returns (fs : filesystem) (path regex : string) (self : GetFiles) :
  (forall e, re_compile regex = Raise e -> e = re_error) ->
  exists self' ev,
    get_files early_print fs path regex self = (self', ev, Return (files self')).
Proof.
  intros Hre.
  destruct (get_files_outcome fs path regex self) as (s & ev & r & Heq & _ & Hr).
  destruct Hr as [->|(e & -> & Hne & He)]; [eauto|].
  exfalso. apply Hne, Hre, He.
Qed.

End GetFilesFacts.

Lemma after_calls_files {re : Re} (early_print : bool) (calls : list call) :
  forall self,
    files (after_calls early_print calls self) =
    files self ++ List.concat (map call_matches calls).
Proof.
  induction calls as [|[[fs path] regex] rest IH]; intros self; simpl.
  - rewrite app_nil_r. reflexivity.
  - rewrite IH.
    destruct (get_files_outcome early_print fs path regex self)
      as (s & ev & r & Heq & Hf & _).
    rewrite Heq. simpl. rewrite Hf, <- app_assoc. reflexivity.
Qed.

(** ** The claims about [get_files] *)

(** A call with a root that exists and a pattern that compiles returns the
    list the instance held before it followed by the matches of the walk. *)
Lemma get_files_fresh_valid
    {re : Re} (early_print : bool) (fs : filesystem) (D pat : string)
    (root : node) (p : pattern) (self : GetFiles) :
  fs D = Some root ->
  re_compile pat = Return p ->
  exists self1 ev1,
    get_files early_print fs D pat self = (self1, ev1, Return (files self1))
    /\ files self1 = files self ++ found p (walk D root).
Proof.
  intros HD Hp. unfold get_files, path_exists, os_walk. rewrite HD.
  destruct (walk_loop_valid early_print pat p Hp (walk D root) self)
    as (s & ev & Heq & Hf).
  rewrite Heq. eauto.
Qed.

(** The matches of a walk are the files below the root some slice of whose
    name the pattern matches. *)
Lemma in_found_span {re : Re} (p : pattern) (D : string) (root : node)
    (path : string) :
  In path (found p (walk D root)) <->
  exists name,
    file_under D root path name
    /\ exists i j, i <= j /\ j <= String.length name
                   /\ match_span p name i j = true.
Proof.
  rewrite in_found. split; intros (name & Hu & Hs); exists name;
    (split; [exact Hu|]); apply pattern_search_iff; exact Hs.
Qed.

(** C3: a second call on one instance does not return the files under its
    root.  After a first call on [/batch] (a first press of VALIDATE), a call
    on the empty directory [/empty] with the same pattern returns the three
    paths found under [/batch], although no file at all lies under [/empty];
    a fresh instance returns none there.  [self.files] is emptied nowhere but
    in [__init__], against the docstring of the class (locate files in
    [path_batch] that match [regex]). *)
Theorem get_files_second_call_keeps_old_files :
  files Fixture.used = ["/batch/a.xml"; "/batch/vol1/x.xml"; "/batch/vol2/x.xml"]
  /\ snd (get_files (re := MiniRe.engine) false Fixture.fs "/empty"
            Fixture.xml_regex Fixture.used)
     = Return ["/batch/a.xml"; "/batch/vol1/x.xml"; "/batch/vol2/x.xml"]
  /\ snd (get_files (re := MiniRe.engine) true Fixture.fs "/empty"
            Fixture.xml_regex Fixture.used)
     = Return ["/batch/a.xml"; "/batch/vol1/x.xml"; "/batch/vol2/x.xml"]
  /\ snd (get_files (re := MiniRe.engine) false Fixture.fs "/empty"
            Fixture.xml_regex (Fixture.fresh "/empty"))
     = Return []
  /\ Fixture.fs "/empty" = Some (Dir [])
  /\ forall path name, ~ file_under "/empty" (Dir []) path name.
Proof.
  split; [vm_compute; reflexivity|].
  split; [vm_compute; reflexivity|].
  split; [vm_compute; reflexivity|].
  split; [vm_compute; reflexivity|].
  split; [reflexivity|].
  intros path name H. inversion H; subst; contradiction.
Qed.

(** The pattern is searched for inside the base name: [xml] finds
    [x.xml.bak], which it does not match as a whole, and [vol1], which occurs
    in two of the paths but in no file name, finds nothing. *)
Example get_files_searches_in_the_base_name :
  snd (get_files (re := MiniRe.engine) false Fixture.fs "/batch" "xml"
         (Fixture.fresh "/batch"))
    = Return ["/batch/a.xml"; "/batch/vol1/x.xml"; "/batch/vol1/x.xml.bak";
              "/batch/vol2/x.xml"]
  /\ match re_compile (Re := MiniRe.engine) "xml" with
     | Return p => Some (pattern_fullmatch (re := MiniRe.engine) p "x.xml.bak")
     | Raise _ => None
     end = Some false
  /\ snd (get_files (re := MiniRe.engine) false Fixture.fs "/batch" "vol1"
            (Fixture.fresh "/batch"))
     = Return [].
Proof.
  repeat split; vm_compute; reflexivity.
Qed.

(** C4, as amended: a pattern that does not compile makes [get_files] neither
    raise nor fail.  The pattern is compiled when the first file name is
    tested, so the walk runs up to the first directory that holds a file, that
    file's name is notified, the message is printed, the walk stops and the
    instance's list is returned unchanged.  When the root holds no file at
    all, or does not exist, the pattern is never looked at. *)
Theorem get_files_invalid_pattern
    {re : Re} (early_print : bool) (fs : filesystem) (D regex : string)
    (self : GetFiles) :
  re_compile regex = Raise re_error ->
  get_files early_print fs D regex self =
  if path_exists fs D then
    match first_filename (os_walk fs D) with
    | Some f =>
        (set_fname f self,
         SetFname f :: (if early_print then [PrintLooking f] else [])
         ++ [PrintInvalidRegex],
         Return (files self))
    | None => (self, [], Return (files self))
    end
  else (self, [PrintNotExist D], Return (files self)).
Proof.
  intros Hp. unfold get_files. destruct (path_exists fs D); [|reflexivity].
  rewrite (walk_loop_invalid early_print regex Hp).
  destruct (first_filename (os_walk fs D)); reflexivity.
Qed.

Lemma get_files_invalid_pattern_witness :
  get_files (re := MiniRe.engine) true Fixture.fs "/batch" "*" (Fixture.fresh "/batch")
  = (set_fname "a.xml" (Fixture.fresh "/batch"),
     [SetFname "a.xml"; PrintLooking "a.xml"; PrintInvalidRegex],
     Return []).
Proof.
  exact (get_files_invalid_pattern (re := MiniRe.engine) true Fixture.fs "/batch"
           "*" (Fixture.fresh "/batch") eq_refl).
Defined.

(** C4 as stated fails: with the pattern [*], which does not compile, a call
    on [/batch] returns normally, after one progress notification. *)
Lemma get_files_invalid_pattern_counterexample :
  re_compile (Re := MiniRe.engine) "*" = Raise re_error
  /\ get_files (re := MiniRe.engine) false Fixture.fs "/batch" "*"
       (Fixture.fresh "/batch")
     = (set_fname "a.xml" (Fixture.fresh "/batch"),
        [SetFname "a.xml"; PrintInvalidRegex],
        Return [])
  /\ List.length
       (filter is_progress
          (snd (fst (get_files (re := MiniRe.engine) false Fixture.fs "/batch" "*"
                       (Fixture.fresh "/batch"))))) = 1.
Proof.
  repeat split; vm_compute; reflexivity.
Qed.

(** C9, as amended: for a root path that does not exist [get_files] does not
    fail: it prints that the path does not exist, walks nothing, notifies no
    file name, leaves the instance as it was and returns the instance's
    list (empty on a fresh instance). *)
Theorem get_files_missing_root
    {re : Re} (early_print : bool) (fs : filesystem) (D regex : string)
    (self : GetFiles) :
  fs D = None ->
  get_files early_print fs D regex self
  = (self, [PrintNotExist D], Return (files self)).
Proof.
  intros HD. unfold get_files, path_exists. rewrite HD. reflexivity.
Qed.

Lemma get_files_missing_root_witness :
  get_files (re := MiniRe.engine) false Fixture.fs "/nowhere" Fixture.xml_regex
    (Fixture.fresh "/nowhere")
  = (Fixture.fresh "/nowhere", [PrintNotExist "/nowhere"], Return []).
Proof.
  exact (get_files_missing_root (re := MiniRe.engine) false Fixture.fs "/nowhere"
           Fixture.xml_regex (Fixture.fresh "/nowhere") eq_refl).
Defined.

(** C9 as stated fails: on a root that does not exist the call returns
    normally, and on an instance used before it returns the paths of the
    earlier call. *)
Lemma get_files_missing_root_counterexample :
  Fixture.fs "/nowhere" = None
  /\ raised (snd (get_files (re := MiniRe.engine) false Fixture.fs "/nowhere"
                    Fixture.xml_regex (Fixture.fresh "/nowhere"))) = false
  /\ snd (get_files (re := MiniRe.engine) false Fixture.fs "/nowhere"
            Fixture.xml_regex Fixture.used)
     = Return ["/batch/a.xml"; "/batch/vol1/x.xml"; "/batch/vol2/x.xml"].
Proof.
  repeat split; vm_compute; reflexivity.
Qed.

(** C10: the instance's list persists.  On an instance made by
    [GetFiles(...)] and used for any sequence of calls, a call with a root
    that exists and a pattern that compiles returns the matches of every
    earlier call, in the order of the calls, followed by its own: nothing is
    cleared in between.  In particular a second call on the same unchanged
    directory returns every match twice.  The matches of a call are read off
    the tree: the files below its root some slice of whose name its pattern
    matches (none for a call whose root does not exist or whose pattern does
    not compile). *)
Theorem get_files_accumulates
    {re : Re} (early_print : bool) (path0 regex0 : string)
    (calls : list call) (fs : filesystem) (D regex : string)
    (root : node) (p : pattern) :
  fs D = Some root ->
  re_compile regex = Return p ->
  snd (get_files early_print fs D regex
         (after_calls early_print calls (GetFiles_init path0 regex0)))
    = Return (List.concat (map call_matches calls) ++ found p (walk D root))
  /\ snd (get_files early_print fs D regex
            (after_calls early_print [(fs, D, regex)] (GetFiles_init path0 regex0)))
     = Return (found p (walk D root) ++ found p (walk D root))
  /\ forall path,
       In path (found p (walk D root)) <->
       exists name,
         file_under D root path name
         /\ exists i j, i <= j /\ j <= String.length name
                        /\ match_span p name i j = true.
Proof.
  intros HD Hp.
  assert (H : forall cs,
    snd (get_files early_print fs D regex
           (after_calls early_print cs (GetFiles_init path0 regex0)))
    = Return (List.concat (map call_matches cs) ++ found p (walk D root))).
  { intros cs.
    destruct (get_files_fresh_valid early_print fs D regex root p
                (after_calls early_print cs (GetFiles_init path0 regex0)) HD Hp)
      as (s & ev & Heq & Hf).
    rewrite Heq. simpl. rewrite Hf, after_calls_files. reflexivity. }
  split; [apply H|]. split; [|intros path; apply in_found_span].
  rewrite (H [(fs, D, regex)]). simpl. rewrite HD, Hp, app_nil_r. reflexivity.
Qed.

Lemma get_files_accumulates_witness :
  snd (get_files (re := MiniRe.engine) false Fixture.fs "/batch" Fixture.xml_regex
         (after_calls (re := MiniRe.engine) false
            [(Fixture.fs, "/clean", Fixture.xml_regex);
             (Fixture.fs, "/nowhere", Fixture.xml_regex);
             (Fixture.fs, "/batch", "*")]
            (GetFiles_init "" Fixture.xml_regex)))
    = Return ["/clean/a.xml";
              "/batch/a.xml"; "/batch/vol1/x.xml"; "/batch/vol2/x.xml"]
  /\ snd (get_files (re := MiniRe.engine) false Fixture.fs "/batch"
            Fixture.xml_regex
            (after_calls (re := MiniRe.engine) false
               [(Fixture.fs, "/batch", Fixture.xml_regex)]
               (GetFiles_init "" Fixture.xml_regex)))
     = Return ["/batch/a.xml"; "/batch/vol1/x.xml"; "/batch/vol2/x.xml";
               "/batch/a.xml"; "/batch/vol1/x.xml"; "/batch/vol2/x.xml"].
Proof.
  pose proof (get_files_accumulates (re := MiniRe.engine) false "" Fixture.xml_regex
                [(Fixture.fs, "/clean", Fixture.xml_regex);
                 (Fixture.fs, "/nowhere", Fixture.xml_regex);
                 (Fixture.fs, "/batch", "*")]
                Fixture.fs "/batch" Fixture.xml_regex Fixture.batch _
                eq_refl eq_refl) as [H1 _].
  pose proof (get_files_accumulates (re := MiniRe.engine) false "" Fixture.xml_regex
                [] Fixture.fs "/batch" Fixture.xml_regex Fixture.batch _
                eq_refl eq_refl) as [_ [H2 _]].
  split; [exact H1 | exact H2].
Defined.

(** ** validate_xml *)

Section CsvScript.
Import batch_validate_xml.
Context {lx : Lxml}.

Lemma dict_set_Forall (P : string * (string * error_log) -> Prop)
    (k : string) (v : string * error_log) (d : dict) :
  P (k, v) -> Forall P d -> Forall P (dict_set k v d).
Proof.
  intros Hv Hd. induction Hd as [|[k' v'] rest Hx Hrest IH]; simpl.
  - constructor; [exact Hv | constructor].
  - destruct (String.eqb k' k) eqn:Hk.
    + apply String.eqb_eq in Hk. subst k'.
      constructor; [exact Hv | exact Hrest].
    + constructor; [exact Hx | exact IH].
Qed.

Lemma dict_set_known (k : string) (v : string * error_log) (d : dict) :
  known_state (k, v) -> Forall known_state d -> Forall known_state (dict_set k v d).
Proof.
  apply dict_set_Forall.
Qed.

(** A key the dict does not hold goes last. *)
Lemma dict_set_fresh (k : string) (v : string * error_log) (d : dict) :
  ~ In k (map fst d) -> dict_set k v d = d ++ [(k, v)].
Proof.
  induction d as [|[k' v'] rest IH]; simpl; intros Hk; [reflexivity|].
  destruct (String.eqb k' k) eqn:Heq.
  - apply String.eqb_eq in Heq. exfalso. apply Hk. left. exact Heq.
  - rewrite IH; [reflexivity|]. intros H. apply Hk. right. exact H.
Qed.

Lemma validate_one_known (xsd : schema) (xmlfile : string) k v :
  validate_one xsd xmlfile = Return (k, v) -> known_state (k, v).
Proof.
  unfold validate_one. destruct (etree_parse xmlfile); try discriminate.
  destruct (xsd_validate xsd d) as [valid log].
  intros H; inversion H; subst. unfold known_state; simpl.
  destruct valid; [left | right]; reflexivity.
Qed.

Lemma validate_files_known (xsd : schema) (schemaf : string) :
  forall xmlfiles ve ve' ev r,
    Forall known_state ve ->
    validate_files xsd schemaf xmlfiles ve = (ve', ev, r) ->
    Forall known_state ve'.
Proof.
  induction xmlfiles as [|f rest IH]; intros ve ve' ev r Hve; simpl.
  - intros H; inversion H; subst; exact Hve.
  - destruct (validate_one xsd f) as [[k v]|e] eqn:Hone.
    + destruct (validate_files xsd schemaf rest _) as [[ve2 ev2] r2] eqn:Heq.
      intros H; inversion H; subst.
      eapply IH; [|exact Heq].
      apply dict_set_known; [|exact Hve]. eapply validate_one_known, Hone.
    + intros H; inversion H; subst; exact Hve.
Qed.

(** Every status [validate_xml] records is [valid] or [invalid]. *)
Lemma validate_xml_known (files : list string) (schemaf : string) (ve : dict) :
  snd (validate_xml files schemaf) = Return ve -> Forall known_state ve.
Proof.
  unfold validate_xml.
  destruct (validate_try files schemaf []) as [[ve' ev] r] eqn:Htry.
  assert (Hk : Forall known_state ve').
  { unfold validate_try in Htry.
    destruct (etree_parse schemaf) as [sd| |].
    - destruct (XMLSchema sd) as [xsd|].
      + eapply validate_files_known; [constructor | exact Htry].
      + inversion Htry; constructor.
    - inversion Htry; constructor.
    - inversion Htry; constructor. }
  destruct r as [[]|e]; simpl.
  - intros H; inversion H; subst; exact Hk.
  - destruct e; simpl; intros H; inversion H; subst; exact Hk.
Qed.

(** The files before the first one that does not parse are validated as if
    they were the whole batch. *)
Lemma validate_files_prefix (xsd : schema) (schemaf : string) :
  forall pre ve,
    Forall parses pre ->
    exists ve' ev,
      validate_files xsd schemaf pre ve = (ve', ev, Return tt)
      /\ forall rest,
           validate_files xsd schemaf (pre ++ rest) ve =
           (fst (fst (validate_files xsd schemaf rest ve')),
            ev ++ snd (fst (validate_files xsd schemaf rest ve')),
            snd (validate_files xsd schemaf rest ve')).
Proof.
  induction pre as [|f pre IH]; intros ve Hpre.
  - exists ve, []. split; [reflexivity|]. intros rest. simpl.
    destruct (validate_files xsd schemaf rest ve) as [[a b] c]. reflexivity.
  - inversion Hpre as [|? ? [d Hd] Hrest]; subst.
    assert (Hone : exists kv, validate_one xsd f = Return kv).
    { unfold validate_one. rewrite Hd.
      destruct (xsd_validate xsd d). eauto. }
    destruct Hone as [[k v] Hone].
    destruct (IH (dict_set k v ve) Hrest) as (ve' & ev & Heq & Happ).
    exists ve', (PrintValidating (basename f) (basename schemaf) :: ev).
    split.
    + simpl. rewrite Hone, Heq. reflexivity.
    + intros rest. simpl. rewrite Hone, Happ.
      destruct (validate_files xsd schemaf rest ve') as [[a b] c]. reflexivity.
Qed.

Lemma validate_xml_stops_at_bad_file (schemaf : string) (sd : doc) (xsd : schema)
    (pre post : list string) (bad : string) :
  etree_parse schemaf = Parsed sd ->
  XMLSchema sd = Some xsd ->
  Forall parses pre ->
  (etree_parse bad = NotWellFormed ->
   snd (validate_xml (pre ++ bad :: post) schemaf) = Raise XMLSyntaxError)
  /\ (etree_parse bad = Unreadable ->
      exists ve,
        snd (validate_xml pre schemaf) = Return ve
        /\ snd (validate_xml (pre ++ bad :: post) schemaf) = Return ve).
Proof.
  intros Hs Hx Hpre.
  destruct (validate_files_prefix xsd schemaf pre [] Hpre) as (ve' & ev & Heq & Happ).
  unfold validate_xml, validate_try. rewrite Hs, Hx, Heq, (Happ (bad :: post)).
  split; intros Hbad; simpl; unfold validate_one; rewrite Hbad; simpl.
  - reflexivity.
  - exists ve'. split; reflexivity.
Qed.

(** Files that all parse and bear distinct base names get one entry each, in
    the order of the list. *)
Lemma validate_files_distinct (xsd : schema) (schemaf : string) :
  forall xmlfiles docs ve,
    Forall2 (fun f d => etree_parse f = Parsed d) xmlfiles docs ->
    NoDup (map fst ve ++ map basename xmlfiles) ->
    exists ev,
      validate_files xsd schemaf xmlfiles ve
      = (ve ++ map (fun fd => (basename (fst fd), verdict xsd (snd fd)))
                   (combine xmlfiles docs),
         ev, Return tt).
Proof.
  intros xmlfiles docs ve H. revert ve.
  induction H as [|f d fs ds Hd _ IH]; intros ve Hnd; simpl.
  - exists []. rewrite app_nil_r. reflexivity.
  - unfold validate_one. rewrite Hd. unfold verdict.
    destruct (xsd_validate xsd d) as [valid log]. simpl.
    assert (Hfresh : ~ In (basename f) (map fst ve)).
    { intros Hin. apply NoDup_remove_2 in Hnd. apply Hnd.
      apply in_or_app. left. exact Hin. }
    rewrite (dict_set_fresh _ _ _ Hfresh).
    destruct (IH (ve ++ [(basename f, (if valid then "valid" else "invalid", log))]))
      as (ev & Heq).
    { rewrite map_app. simpl. rewrite <- app_assoc. exact Hnd. }
    rewrite Heq. exists (PrintValidating (basename f) (basename schemaf) :: ev).
    rewrite <- app_assoc. reflexivity.
Qed.

Lemma validate_xml_distinct (schemaf : string) (sd : doc) (xsd : schema)
    (xmlfiles : list string) (docs : list doc) :
  etree_parse schemaf = Parsed sd ->
  XMLSchema sd = Some xsd ->
  Forall2 (fun f d => etree_parse f = Parsed d) xmlfiles docs ->
  NoDup (map basename xmlfiles) ->
  snd (validate_xml xmlfiles schemaf)
  = Return (map (fun fd => (basename (fst fd), verdict xsd (snd fd)))
                (combine xmlfiles docs)).
Proof.
  intros Hs Hx Hdocs Hnd. unfold validate_xml, validate_try. rewrite Hs, Hx.
  destruct (validate_files_distinct xsd schemaf xmlfiles docs [] Hdocs Hnd)
    as (ev & Heq).
  rewrite Heq. reflexivity.
Qed.

End CsvScript.

Section TextScript.
Import validate_xml_0_0_4.
Context {lx : Lxml}.

Lemma validate_files_prefix_txt (xsd : schema) (schemaf : string) :
  forall pre ve,
    Forall parses pre ->
    exists ve' ev,
      validate_files xsd schemaf pre ve = (ve', ev, Return tt)
      /\ List.length ve' = List.length ve + List.length pre
      /\ forall rest,
           validate_files xsd schemaf (pre ++ rest) ve =
           (fst (fst (validate_files xsd schemaf rest ve')),
            ev ++ snd (fst (validate_files xsd schemaf rest ve')),
            snd (validate_files xsd schemaf rest ve')).
Proof.
  induction pre as [|f pre IH]; intros ve Hpre.
  - exists ve, []. split; [reflexivity|]. split; [simpl; lia|].
    intros rest. simpl.
    destruct (validate_files xsd schemaf rest ve) as [[a b] c]. reflexivity.
  - inversion Hpre as [|? ? [d Hd] Hrest]; subst.
    assert (Hone : validate_one xsd f = Return (snd (xsd_validate xsd d))).
    { unfold validate_one. rewrite Hd. reflexivity. }
    destruct (IH (ve ++ [snd (xsd_validate xsd d)]) Hrest)
      as (ve' & ev & Heq & Hlen & Happ).
    exists ve', (PrintValidating (basename f) (basename schemaf) :: ev).
    split; [|split].
    + simpl. rewrite Hone, Heq. reflexivity.
    + rewrite Hlen, length_app. simpl. lia.
    + intros rest. simpl. rewrite Hone, Happ.
      destruct (validate_files xsd schemaf rest ve') as [[a b] c]. reflexivity.
Qed.

Lemma validate_xml_stops_at_bad_file_txt (schemaf : string) (sd : doc)
    (xsd : schema) (pre post : list string) (bad : string) :
  etree_parse schemaf = Parsed sd ->
  XMLSchema sd = Some xsd ->
  Forall parses pre ->
  (etree_parse bad = NotWellFormed ->
   snd (validate_xml (pre ++ bad :: post) schemaf) = Raise XMLSyntaxError)
  /\ (etree_parse bad = Unreadable ->
      exists ve,
        snd (validate_xml pre schemaf) = Return ve
        /\ snd (validate_xml (pre ++ bad :: post) schemaf) = Return ve).
Proof.
  intros Hs Hx Hpre.
  destruct (validate_files_prefix_txt xsd schemaf pre [] Hpre)
    as (ve' & ev & Heq & _ & Happ).
  unfold validate_xml, validate_try. rewrite Hs, Hx, Heq, (Happ (bad :: post)).
  split; intros Hbad; simpl; unfold validate_one; rewrite Hbad; simpl.
  - reflexivity.
  - exists ve'. split; reflexivity.
Qed.

(** When the schema loads and every file parses, the list of logs is as long
    as the list of files, whatever the logs hold. *)
Lemma validate_xml_one_log_per_file (schemaf : string) (sd : doc) (xsd : schema)
    (files : list string) :
  etree_parse schemaf = Parsed sd ->
  XMLSchema sd = Some xsd ->
  Forall parses files ->
  exists ve,
    snd (validate_xml files schemaf) = Return ve
    /\ List.length ve = List.length files
    /\ validated_succesfully ve files = 0%Z
    /\ validation_error_count ve = Z.of_nat (List.length files).
Proof.
  intros Hs Hx Hfiles.
  destruct (validate_files_prefix_txt xsd schemaf files [] Hfiles)
    as (ve' & ev & Heq & Hlen & _).
  unfold validate_xml, validate_try. rewrite Hs, Hx, Heq. simpl in *.
  exists ve'. unfold validated_succesfully, validation_error_count.
  rewrite Hlen. repeat split; lia.
Qed.

End TextScript.

(** C1, as amended: [validate_xml] has no status [unreadable] and does not
    recover from a bad input file, in either script.  With the schema loaded
    and the files before it parsed, a file that is not well-formed XML makes
    [validate_xml] raise [XMLSyntaxError], so nothing is returned for the
    batch; a file that cannot be read ends the loop, and what is returned is
    what validating the files before it alone returns: the bad file and the
    files after it get no result.  Every status recorded is [valid] or
    [invalid]. *)
Theorem validate_xml_bad_input_file
    {lx : Lxml} (schemaf : string) (sd : doc) (xsd : schema)
    (pre post : list string) (bad : string) :
  etree_parse schemaf = Parsed sd ->
  XMLSchema sd = Some xsd ->
  Forall parses pre ->
  (etree_parse bad = NotWellFormed ->
   snd (batch_validate_xml.validate_xml (pre ++ bad :: post) schemaf)
     = Raise XMLSyntaxError
   /\ snd (validate_xml_0_0_4.validate_xml (pre ++ bad :: post) schemaf)
     = Raise XMLSyntaxError)
  /\ (etree_parse bad = Unreadable ->
      (exists ve,
         snd (batch_validate_xml.validate_xml pre schemaf) = Return ve
         /\ snd (batch_validate_xml.validate_xml (pre ++ bad :: post) schemaf)
            = Return ve
         /\ Forall known_state ve)
      /\ (exists ve,
            snd (validate_xml_0_0_4.validate_xml pre schemaf) = Return ve
            /\ snd (validate_xml_0_0_4.validate_xml (pre ++ bad :: post) schemaf)
               = Return ve)).
Proof.
  intros Hs Hx Hpre.
  pose proof (validate_xml_stops_at_bad_file schemaf sd xsd pre post bad Hs Hx Hpre)
    as [Hw Hu].
  pose proof (validate_xml_stops_at_bad_file_txt schemaf sd xsd pre post bad Hs Hx Hpre)
    as [Hw' Hu'].
  split; intros Hbad.
  - split; [apply Hw | apply Hw']; exact Hbad.
  - split; [|apply Hu'; exact Hbad].
    destruct (Hu Hbad) as (ve & H1 & H2). exists ve.
    repeat split; [exact H1 | exact H2 | eapply validate_xml_known, H1].
Qed.

Lemma validate_xml_bad_input_file_witness :
  snd (batch_validate_xml.validate_xml (lx := Fixture.lxml)
         (["/batch/a.xml"] ++ "/batch/c.xml" :: ["/batch/b.xml"])
         "/schemas/mets.xsd") = Raise XMLSyntaxError
  /\ snd (validate_xml_0_0_4.validate_xml (lx := Fixture.lxml)
            (["/batch/a.xml"] ++ "/batch/c.xml" :: ["/batch/b.xml"])
            "/schemas/mets.xsd") = Raise XMLSyntaxError.
Proof.
  refine (proj1 (validate_xml_bad_input_file (lx := Fixture.lxml)
                   "/schemas/mets.xsd" Fixture.schema_doc tt
                   ["/batch/a.xml"] ["/batch/b.xml"] "/batch/c.xml"
                   eq_refl eq_refl _)
                eq_refl).
  constructor; [exists Fixture.good_doc; reflexivity | constructor].
Defined.

(** C1 as stated fails: [c.xml] is not well-formed and [validate_xml] raises,
    so [b.xml] is never validated; [gone.xml] cannot be read and the result
    holds [a.xml] alone, with no entry for [gone.xml] or [b.xml]. *)
Lemma validate_xml_bad_input_file_counterexample :
  etree_parse (Lxml := Fixture.lxml) "/batch/c.xml" = NotWellFormed
  /\ snd (batch_validate_xml.validate_xml (lx := Fixture.lxml)
            ["/batch/a.xml"; "/batch/c.xml"; "/batch/b.xml"] "/schemas/mets.xsd")
     = Raise XMLSyntaxError
  /\ etree_parse (Lxml := Fixture.lxml) "/batch/gone.xml" = Unreadable
  /\ snd (batch_validate_xml.validate_xml (lx := Fixture.lxml)
            ["/batch/a.xml"; "/batch/gone.xml"; "/batch/b.xml"] "/schemas/mets.xsd")
     = Return [("a.xml", ("valid", []))].
Proof.
  repeat split; vm_compute; reflexivity.
Qed.

(** ** write_errors *)

Lemma write_errors_returned {lx : Lxml} (fs : filesystem)
    (strftime : string -> string) (ve : batch_validate_xml.dict)
    (path_batch : string) (xmlfiles : list string) (art : artifact) :
  snd (batch_validate_xml.write_errors fs strftime ve path_batch xmlfiles)
    = Return art ->
  art = {| art_path :=
             join "./logs"
               ("validate_xml-" ++ basename path_batch ++ "-"
                ++ strftime "%Y%m%d_%H%M%S" ++ ".csv");
           art_content :=
             (writerow ["filename"; "valid"; "error"]
              ++ String.concat "" (map batch_validate_xml.csv_row ve))%string |}.
Proof.
  unfold batch_validate_xml.write_errors, os_mkdir, open_w.
  destruct (path_exists fs "./logs"), (mkdir_raises fs "./logs"),
    (lookup fs "./logs") as [[|]|]; simpl; try discriminate;
    destruct (open_raises fs _); simpl;
    intros H; inversion H; destruct ve; reflexivity.
Qed.

Lemma write_errors_writable {lx : Lxml} (fs : filesystem)
    (strftime : string -> string) (ve : batch_validate_xml.dict)
    (path_batch : string) (xmlfiles : list string) :
  writable fs ->
  exists art,
    snd (batch_validate_xml.write_errors fs strftime ve path_batch xmlfiles)
      = Return art.
Proof.
  intros (Hl & Hm & Ho).
  unfold batch_validate_xml.write_errors, os_mkdir, open_w, path_exists.
  rewrite Hm, Ho.
  destruct (lookup fs "./logs") as [[|]|]; [contradiction | |];
    eexists; reflexivity.
Qed.

(** Creating [./logs] and opening the report raise nothing but [OSError]. *)
Lemma write_errors_raises {lx : Lxml} (fs : filesystem)
    (strftime : string -> string) (ve : batch_validate_xml.dict)
    (path_batch : string) (xmlfiles : list string) (e : exn) :
  snd (batch_validate_xml.write_errors fs strftime ve path_batch xmlfiles)
    = Raise e ->
  e = OSError.
Proof.
  unfold batch_validate_xml.write_errors, os_mkdir, open_w.
  destruct (path_exists fs "./logs"), (mkdir_raises fs "./logs"),
    (lookup fs "./logs") as [[|]|]; simpl;
    try (intros H; inversion H; reflexivity);
    destruct (open_raises fs _); simpl;
    intros H; inversion H; reflexivity.
Qed.

(** The button callback of [batch_validate_xml.py], once [get_files] has
    returned. *)
Lemma batch_validate_after_get_files
    {re : Re} {lx : Lxml} (fs : filesystem) (strftime : string -> string)
    (self self1 : GetFiles) (ev1 : list event) (paths : list string)
    (var re1 sch_loc : string) :
  batch_validate_xml.get_files fs var re1 self = (self1, ev1, Return paths) ->
  fst (fst (batch_validate_xml.validate fs strftime self var re1 sch_loc)) = self1
  /\ snd (batch_validate_xml.validate fs strftime self var re1 sch_loc)
     = match snd (batch_validate_xml.validate_xml (files self1) sch_loc) with
       | Return ve =>
           snd (batch_validate_xml.write_errors fs strftime ve var (files self1))
       | Raise e => Raise e
       end.
Proof.
  intros Hg. unfold batch_validate_xml.validate. rewrite Hg.
  destruct (batch_validate_xml.validate_xml (files self1) sch_loc) as [ev2 [ve|e]];
    simpl; [|auto].
  destruct (batch_validate_xml.write_errors fs strftime ve var (files self1))
    as [ev3 [art|e]]; simpl; auto.
Qed.

(** C2, as amended: when the schema file cannot be read ([OSError]),
    [validate_xml] prints that it can not be loaded and returns the empty
    dict, so no result is produced, but the run does not abort there: once
    [get_files] has returned, the button callback goes on to [write_errors]
    with the empty dict, and what it returns is what [write_errors] returns: a
    report that holds the header row alone, which is written whenever [./logs]
    can be made and the report opened.  When the schema file is not
    well-formed XML, or is not a schema, lxml's exception leaves
    [validate_xml] and the button callback: no result and no report. *)
Theorem validate_schema_not_loaded
    {re : Re} {lx : Lxml} (fs : filesystem) (strftime : string -> string)
    (self self1 : GetFiles) (ev1 : list event) (paths : list string)
    (var re1 sch_loc : string) :
  batch_validate_xml.get_files fs var re1 self = (self1, ev1, Return paths) ->
  (etree_parse sch_loc = Unreadable ->
   (forall xmlfiles,
      batch_validate_xml.validate_xml xmlfiles sch_loc
      = ([PrintCannotLoad sch_loc], Return []))
   /\ snd (batch_validate_xml.validate fs strftime self var re1 sch_loc)
      = snd (batch_validate_xml.write_errors fs strftime [] var (files self1))
   /\ (forall art,
         snd (batch_validate_xml.validate fs strftime self var re1 sch_loc)
           = Return art ->
         art_content art = ("filename,valid,error" ++ String CR nl)%string)
   /\ (writable fs ->
       exists art,
         snd (batch_validate_xml.validate fs strftime self var re1 sch_loc)
           = Return art
         /\ art_content art = ("filename,valid,error" ++ String CR nl)%string))
  /\ (etree_parse sch_loc = NotWellFormed ->
      snd (batch_validate_xml.validate fs strftime self var re1 sch_loc)
        = Raise XMLSyntaxError)
  /\ (forall sd,
        etree_parse sch_loc = Parsed sd -> XMLSchema sd = None ->
        snd (batch_validate_xml.validate fs strftime self var re1 sch_loc)
          = Raise XMLSchemaParseError).
Proof.
  intros Hg.
  destruct (batch_validate_after_get_files fs strftime self self1 ev1 paths
              var re1 sch_loc Hg) as [_ Hres].
  rewrite Hres.
  unfold batch_validate_xml.validate_xml, batch_validate_xml.validate_try.
  split; [|split].
  - intros Hs. rewrite Hs. simpl.
    assert (Hc : forall art,
      snd (batch_validate_xml.write_errors fs strftime [] var (files self1))
        = Return art ->
      art_content art = ("filename,valid,error" ++ String CR nl)%string).
    { intros art Ha. apply write_errors_returned in Ha. subst art. reflexivity. }
    split; [reflexivity|]. split; [reflexivity|]. split; [exact Hc|].
    intros Hw.
    destruct (write_errors_writable fs strftime [] var (files self1) Hw)
      as [art Ha].
    exists art. split; [exact Ha | apply Hc, Ha].
  - intros Hs. rewrite Hs. reflexivity.
  - intros sd Hs Hx. rewrite Hs, Hx. reflexivity.
Qed.

Lemma fixture_writable : writable Fixture.fs.
Proof.
  split; [discriminate | split; reflexivity].
Qed.

Lemma validate_schema_not_loaded_witness :
  (forall xmlfiles,
     batch_validate_xml.validate_xml (lx := Fixture.lxml) xmlfiles
       "/schemas/missing.xsd"
     = ([PrintCannotLoad "/schemas/missing.xsd"], Return []))
  /\ exists art,
       snd (batch_validate_xml.validate (re := MiniRe.engine) (lx := Fixture.lxml)
              Fixture.fs Fixture.clock (Fixture.fresh "/batch")
              "/batch" Fixture.xml_regex "/schemas/missing.xsd") = Return art
       /\ art_content art = ("filename,valid,error" ++ String CR nl)%string.
Proof.
  pose proof (proj1 (validate_schema_not_loaded (re := MiniRe.engine)
                       (lx := Fixture.lxml) Fixture.fs Fixture.clock
                       (Fixture.fresh "/batch") Fixture.used
                       (snd (fst (batch_validate_xml.get_files (re := MiniRe.engine)
                                    Fixture.fs "/batch" Fixture.xml_regex
                                    (Fixture.fresh "/batch"))))
                       (files Fixture.used)
                       "/batch" Fixture.xml_regex "/schemas/missing.xsd" eq_refl)
                    eq_refl) as (H1 & _ & _ & H4).
  split; [exact H1 | exact (H4 fixture_writable)].
Defined.

(** C2 as stated fails: with a schema path that names no file the run does
    not abort, and a report is written. *)
Lemma validate_schema_not_loaded_counterexample :
  etree_parse (Lxml := Fixture.lxml) "/schemas/missing.xsd" = Unreadable
  /\ snd (batch_validate_xml.validate (re := MiniRe.engine) (lx := Fixture.lxml)
            Fixture.fs Fixture.clock (Fixture.fresh "/batch")
            "/batch" Fixture.xml_regex "/schemas/missing.xsd")
     = Return {| art_path := "./logs/validate_xml-batch-20200327_101500.csv";
                 art_content := ("filename,valid,error" ++ String CR nl)%string |}.
Proof.
  split; vm_compute; reflexivity.
Qed.

(** C5 at its failing input: [/batch] holds [vol1/x.xml] and [vol2/x.xml].
    [get_files] finds three files, the dict of [validate_xml] is keyed by base
    name and holds two entries, and the report has two rows: the result of
    [vol1/x.xml], which is valid, is overwritten by that of [vol2/x.xml]. *)
Example validate_same_base_name :
  snd (batch_validate_xml.get_files (re := MiniRe.engine) Fixture.fs "/batch"
         Fixture.xml_regex (Fixture.fresh "/batch"))
    = Return ["/batch/a.xml"; "/batch/vol1/x.xml"; "/batch/vol2/x.xml"]
  /\ snd (batch_validate_xml.validate_xml (lx := Fixture.lxml)
            ["/batch/a.xml"; "/batch/vol1/x.xml"; "/batch/vol2/x.xml"]
            "/schemas/mets.xsd")
     = Return [("a.xml", ("valid", []));
               ("x.xml", ("invalid", [Fixture.order_error]))]
  /\ snd (batch_validate_xml.validate_xml (lx := Fixture.lxml)
            ["/batch/vol1/x.xml"] "/schemas/mets.xsd")
     = Return [("x.xml", ("valid", []))]
  /\ option_map art_content
       (match snd (batch_validate_xml.validate (re := MiniRe.engine)
                     (lx := Fixture.lxml) Fixture.fs Fixture.clock
                     (Fixture.fresh "/batch") "/batch" Fixture.xml_regex
                     "/schemas/mets.xsd")
        with Return art => Some art | Raise _ => None end)
     = Some (writerow ["filename"; "valid"; "error"]
             ++ writerow ["a.xml"; "valid"; ""]
             ++ writerow ["x.xml"; "invalid";
                          str_log (lx := Fixture.lxml) [Fixture.order_error]])%string.
Proof.
  repeat split; vm_compute; reflexivity.
Qed.

(** C6 at its failing input: one file, which is valid.  Its log is empty,
    yet the summary of the text report counts no file as validated and one
    as an error: the second number is the number of logs, the first the
    number of files less the number of logs. *)
Example summary_of_one_valid_file :
  snd (validate_xml_0_0_4.validate_xml (lx := Fixture.lxml)
         ["/clean/a.xml"] "/schemas/mets.xsd") = Return [[]]
  /\ validate_xml_0_0_4.validated_succesfully [[]] ["/clean/a.xml"] = 0%Z
  /\ validate_xml_0_0_4.validation_error_count [[]] = 1%Z
  /\ option_map art_content
       (match snd (validate_xml_0_0_4.validate (re := MiniRe.engine)
                     (lx := Fixture.lxml) Fixture.fs Fixture.clock
                     (Fixture.fresh "/clean") "/clean" Fixture.xml_regex
                     "/schemas/mets.xsd")
        with Return art => Some art | Raise _ => None end)
     = Some ("[validate_xml log generated 20200327T10:15:00]" ++ nl ++ nl
             ++ nl ++ "Validated succesfully: 0"
             ++ validate_xml_0_0_4.summary_indent
             ++ nl ++ "Validation errors: 1")%string.
Proof.
  repeat split; vm_compute; reflexivity.
Qed.

(** C8: for every dict of results, the empty one included, the CSV report
    that [write_errors] returns is the header row [filename,valid,error]
    followed by one row per entry, made of its key, its status and [str] of
    its log, which is empty for an empty log; it is returned whenever [./logs]
    can be made and the report opened; and the status of every entry that
    [validate_xml] produces is [valid] or [invalid]. *)
Theorem write_errors_csv_rows
    {lx : Lxml} (fs : filesystem) (strftime : string -> string)
    (ve : batch_validate_xml.dict) (path_batch : string) (xmlfiles : list string) :
  (forall art,
     snd (batch_validate_xml.write_errors fs strftime ve path_batch xmlfiles)
       = Return art ->
     art_content art
     = (("filename,valid,error" ++ String CR nl)
        ++ String.concat ""
             (map (fun item =>
                     writerow [fst item; fst (snd item); str_log (snd (snd item))])
                  ve))%string)
  /\ (writable fs ->
      exists art,
        snd (batch_validate_xml.write_errors fs strftime ve path_batch xmlfiles)
          = Return art)
  /\ (forall validated schemaf,
        snd (batch_validate_xml.validate_xml validated schemaf) = Return ve ->
        Forall (fun item => fst (snd item) = "valid" \/ fst (snd item) = "invalid") ve)
  /\ str_log [] = "".
Proof.
  split; [|split; [|split]].
  - intros art Ha. apply write_errors_returned in Ha. subst art.
    cbn [art_content].
    change (writerow ["filename"; "valid"; "error"])
      with ("filename,valid,error" ++ String CR nl)%string.
    do 2 f_equal. apply map_ext. intros [k [st log]]. reflexivity.
  - apply write_errors_writable.
  - intros validated schemaf Hve. exact (validate_xml_known validated schemaf ve Hve).
  - reflexivity.
Qed.

Lemma write_errors_csv_rows_witness :
  (exists art,
     snd (batch_validate_xml.write_errors (lx := Fixture.lxml) Fixture.fs
            Fixture.clock
            [("a.xml", ("valid", []));
             ("b.xml", ("invalid", [Fixture.order_error]))]
            "/batch" ["/batch/a.xml"; "/batch/b.xml"]) = Return art
     /\ art_content art
        = (("filename,valid,error" ++ String CR nl)
           ++ String.concat ""
                (map (fun item =>
                        writerow [fst item; fst (snd item);
                                  str_log (lx := Fixture.lxml) (snd (snd item))])
                     [("a.xml", ("valid", []));
                      ("b.xml", ("invalid", [Fixture.order_error]))]))%string)
  /\ Forall (fun item : string * (string * error_log) =>
               fst (snd item) = "valid" \/ fst (snd item) = "invalid")
       [("a.xml", ("valid", []));
        ("b.xml", ("invalid", [Fixture.order_error]))].
Proof.
  pose proof (write_errors_csv_rows (lx := Fixture.lxml) Fixture.fs Fixture.clock
                [("a.xml", ("valid", []));
                 ("b.xml", ("invalid", [Fixture.order_error]))]
                "/batch" ["/batch/a.xml"; "/batch/b.xml"]) as (Hc & Hw & Hk & _).
  split.
  - destruct (Hw fixture_writable) as [art Ha].
    exists art. split; [exact Ha | exact (Hc art Ha)].
  - exact (Hk ["/batch/a.xml"; "/batch/b.xml"] "/schemas/mets.xsd" eq_refl).
Defined.

(** * Further properties *)

(** ** os.path *)

Lemma str_append_assoc (a b c : string) :
  ((a ++ b) ++ c)%string = (a ++ (b ++ c))%string.
Proof.
  induction a as [|x a IH]; simpl; [reflexivity|]. rewrite IH. reflexivity.
Qed.

Lemma contains_sep_app (a b : string) :
  contains_sep (a ++ b) = (contains_sep a || contains_sep b)%bool.
Proof.
  induction a as [|c a IH]; simpl; [reflexivity|].
  rewrite IH, orb_assoc. reflexivity.
Qed.

Lemma basename_plain (f : string) : contains_sep f = false -> basename f = f.
Proof.
  destruct f as [|c r]; simpl; [reflexivity|].
  intros H. apply orb_false_elim in H. destruct H as [Hc Hr].
  rewrite Hr, Hc. reflexivity.
Qed.

Lemma basename_after_sep (a f : string) :
  contains_sep f = false -> basename (a ++ String SEP f) = f.
Proof.
  intros Hf. induction a as [|c a IH]; simpl.
  - rewrite Hf. reflexivity.
  - rewrite contains_sep_app. simpl. rewrite orb_true_r. exact IH.
Qed.

Lemma endswith_sep_split (a : string) :
  endswith_sep a = true -> exists a', a = (a' ++ String SEP EmptyString)%string.
Proof.
  induction a as [|c a IH]; simpl; [discriminate|].
  destruct a as [|c' a].
  - intros H. apply Ascii.eqb_eq in H. subst c. exists EmptyString. reflexivity.
  - intros H. destruct (IH H) as [a' Ha']. exists (String c a').
    simpl. rewrite <- Ha'. reflexivity.
Qed.

Lemma startswith_sep_plain (f : string) :
  contains_sep f = false -> startswith_sep f = false.
Proof.
  destruct f as [|c r]; simpl; [reflexivity|].
  intros H. apply orb_false_elim in H. tauto.
Qed.

(** The base name of a joined path is the file name joined on. *)
Lemma basename_join (dirpath f : string) :
  contains_sep f = false -> basename (join dirpath f) = f.
Proof.
  intros Hf. unfold join. rewrite (startswith_sep_plain f Hf).
  destruct (String.eqb dirpath EmptyString) eqn:He; simpl.
  - apply String.eqb_eq in He. subst dirpath. simpl. apply basename_plain, Hf.
  - destruct (endswith_sep dirpath) eqn:Hs.
    + destruct (endswith_sep_split dirpath Hs) as [a' ->].
      rewrite str_append_assoc. simpl. apply basename_after_sep, Hf.
    + apply basename_after_sep, Hf.
Qed.

Lemma basename_trailing_sep (p : string) :
  basename (p ++ String SEP EmptyString) = EmptyString.
Proof.
  apply (basename_after_sep p EmptyString). reflexivity.
Qed.

(** ** More on get_files *)

Lemma last_cons {A : Type} (l : list A) :
  forall a d, last (a :: l) d = last l a.
Proof.
  induction l as [|b l IH]; intros a d; [reflexivity|].
  change (last (a :: b :: l) d) with (last (b :: l) d).
  rewrite (IH b d), (IH b a). reflexivity.
Qed.

Lemma last_append {A : Type} (l1 l2 : list A) :
  forall d, last (l1 ++ l2) d = last l2 (last l1 d).
Proof.
  induction l1 as [|a l1 IH]; intros d; [reflexivity|].
  rewrite <- app_comm_cons, !last_cons. apply IH.
Qed.

Section MoreGetFiles.
Context {re : Re}.
Variable early_print : bool.

Lemma scan_filenames_fields (pat dirpath : string) :
  forall names self self' ev r,
    scan_filenames early_print pat dirpath names self = (self', ev, r) ->
    path_batch self' = path_batch self /\ regex self' = regex self.
Proof.
  induction names as [|f rest IH]; intros self self' ev r; simpl.
  - intros H; inversion H; auto.
  - destruct (re_search pat f) as [b|e].
    + destruct (scan_filenames _ _ _ rest _) as [[s3 ev3] r3] eqn:Heq.
      intros H; inversion H; subst.
      apply IH in Heq. destruct b; simpl in Heq; exact Heq.
    + intros H; inversion H; subst. auto.
Qed.

Lemma walk_loop_fields (pat : string) :
  forall triples self self' ev r,
    walk_loop early_print pat triples self = (self', ev, r) ->
    path_batch self' = path_batch self /\ regex self' = regex self.
Proof.
  induction triples as [|[[dirpath dns] names] rest IH];
    intros self self' ev r; simpl.
  - intros H; inversion H; auto.
  - destruct (scan_filenames _ _ _ names self) as [[s1 ev1] r1] eqn:Hscan.
    apply scan_filenames_fields in Hscan.
    destruct r1 as [[]|e].
    + destruct (walk_loop _ _ rest s1) as [[s2 ev2] r2] eqn:Hloop.
      intros H; inversion H; subst.
      apply IH in Hloop. destruct Hloop, Hscan. split; congruence.
    + destruct e; intros H; inversion H; subst; exact Hscan.
Qed.

Lemma scan_filenames_trace (pat dirpath : string) (p : pattern) :
  re_compile pat = Return p ->
  forall names self,
  exists self',
    scan_filenames early_print pat dirpath names self
    = (self', flat_map (file_events early_print p) names, Return tt)
    /\ fname self' = last names (fname self).
Proof.
  intros Hp. induction names as [|f rest IH]; intros self.
  - exists self. split; reflexivity.
  - simpl scan_filenames. unfold re_search. rewrite Hp.
    set (self2 := if pattern_search p f
                  then append_file (join dirpath f) (set_fname f self)
                  else set_fname f self).
    destruct (IH self2) as (self' & Heq & Hf).
    rewrite Heq. exists self'. split.
    + simpl. unfold file_events.
      destruct early_print, (pattern_search p f); reflexivity.
    + rewrite Hf.
      assert (Hn : fname self2 = f) by (unfold self2; destruct (pattern_search p f); reflexivity).
      rewrite Hn, last_cons. reflexivity.
Qed.

Lemma walk_loop_trace (pat : string) (p : pattern) :
  re_compile pat = Return p ->
  forall triples self,
  exists self',
    walk_loop early_print pat triples self
    = (self', flat_map (file_events early_print p) (visited triples), Return tt)
    /\ fname self' = last (visited triples) (fname self).
Proof.
  intros Hp. induction triples as [|[[dirpath dns] names] rest IH]; intros self.
  - exists self. split; reflexivity.
  - simpl walk_loop.
    destruct (scan_filenames_trace pat dirpath p Hp names self) as (s1 & Heq1 & Hf1).
    rewrite Heq1.
    destruct (IH s1) as (s2 & Heq2 & Hf2). rewrite Heq2.
    exists s2. unfold visited in *. simpl. split.
    + rewrite flat_map_app. reflexivity.
    + rewrite Hf2, Hf1, last_append. reflexivity.
Qed.

Lemma walk_loop_no_file (pat : string) :
  forall triples self,
    first_filename triples = None ->
    walk_loop early_print pat triples self = (self, [], Return tt).
Proof.
  induction triples as [|[[dirpath dns] names] rest IH]; intros self Hn.
  - reflexivity.
  - destruct names as [|f names]; [|discriminate].
    simpl. rewrite (IH self Hn). reflexivity.
Qed.

Lemma found_basenames (p : pattern) :
  forall triples,
    plain_names triples ->
    map basename (found p triples) = matched_names p triples.
Proof.
  unfold plain_names, matched_names, visited, found.
  induction triples as [|[[dirpath dns] names] rest IH]; intros Hplain.
  - reflexivity.
  - simpl in *. apply Forall_app in Hplain. destruct Hplain as [Hn Hrest].
    rewrite map_app, filter_app, (IH Hrest). f_equal.
    clear - Hn. induction Hn as [|f names Hf _ IHn]; [reflexivity|].
    simpl. destruct (pattern_search p f); simpl.
    + rewrite (basename_join dirpath f Hf), IHn. reflexivity.
    + exact IHn.
Qed.

End MoreGetFiles.

(** X1: [get_files] lets no [re.error] out: the error of a bad pattern is
    caught inside and the instance's list returned.  The one way it raises is
    an exception other than [re.error] from compiling the pattern
    ([OverflowError] for a repetition count beyond the engine's bound,
    [RecursionError] for nesting beyond the interpreter's), which the
    [except (re.error)] clause lets through; when compiling raises nothing but
    [re.error], it returns.  Either way the list held before is a prefix of
    the instance's list, what is added is the matching files of this call, and
    the instance's [path_batch] and [regex] are left as [__init__] set them. *)
Theorem get_files_lets_no_re_error_out
    {re : Re} (early_print : bool) (fs : filesystem) (D pat : string)
    (self : GetFiles) :
  exists self' ev r,
    get_files early_print fs D pat self = (self', ev, r)
    /\ (r = Return (files self')
        \/ exists e, r = Raise e /\ e <> re_error /\ re_compile pat = Raise e)
    /\ ((forall e, re_compile pat = Raise e -> e = re_error) ->
        r = Return (files self'))
    /\ files self' = files self ++ call_matches (fs, D, pat)
    /\ path_batch self' = path_batch self
    /\ regex self' = regex self.
Proof.
  destruct (get_files_outcome early_print fs D pat self)
    as (s & ev & r & Heq & Hf & Hr).
  exists s, ev, r. split; [exact Heq|]. split; [exact Hr|]. split.
  - intros Hre. destruct Hr as [->|(e & -> & Hne & He)]; [reflexivity|].
    exfalso. apply Hne, Hre, He.
  - split; [exact Hf|].
    unfold get_files in Heq. destruct (path_exists fs D).
    + destruct (walk_loop early_print pat (os_walk fs D) self) as [[s1 ev1] r1] eqn:Hl.
      apply walk_loop_fields in Hl.
      destruct r1 as [[]|e]; [|destruct e]; inversion Heq; subst; exact Hl.
    + inversion Heq; subst. auto.
Qed.

Lemma get_files_lets_no_re_error_out_witness :
  exists self' ev r,
    get_files (re := MiniRe.engine) false Fixture.fs "/batch" "*" Fixture.used
      = (self', ev, r)
    /\ (r = Return (files self')
        \/ exists e, r = Raise e /\ e <> re_error
                     /\ re_compile (Re := MiniRe.engine) "*" = Raise e)
    /\ ((forall e, re_compile (Re := MiniRe.engine) "*" = Raise e -> e = re_error) ->
        r = Return (files self'))
    /\ files self'
       = files Fixture.used
         ++ call_matches (re := MiniRe.engine) (Fixture.fs, "/batch", "*")
    /\ path_batch self' = path_batch Fixture.used
    /\ regex self' = regex Fixture.used.
Proof.
  exact (get_files_lets_no_re_error_out (re := MiniRe.engine) false Fixture.fs
           "/batch" "*" Fixture.used).
Defined.

(** The escaping case of X1 on the toy engine: a repetition count beyond the
    engine's bound raises [OverflowError] at the first file name, out of
    [get_files], with nothing appended; the same call on a root without files
    returns, the pattern never being compiled. *)
Example get_files_overflow_escapes :
  get_files (re := MiniRe.engine) false Fixture.fs "/batch" "a{4294967296}"
    Fixture.used
  = (set_fname "a.xml" Fixture.used, [SetFname "a.xml"], Raise OverflowError)
  /\ snd (get_files (re := MiniRe.engine) false Fixture.fs "/empty" "a{4294967296}"
            Fixture.used)
     = Return (files Fixture.used).
Proof.
  split; reflexivity.
Qed.

(** X2: with a root that exists and a pattern that compiles, [get_files]
    notifies every file name of the walk, matched or not, once and in walk
    order, and prints [Looking for files] for the matches only in
    [batch_validate_xml.py] and for every file in [validate_xml_0_0_4.py];
    nothing else is printed.  [self.fname] ends as the last file name
    visited, or stays as it was when the walk meets no file. *)
Theorem get_files_trace
    {re : Re} (early_print : bool) (fs : filesystem) (D pat : string)
    (root : node) (p : pattern) (self : GetFiles) :
  fs D = Some root ->
  re_compile pat = Return p ->
  snd (fst (get_files early_print fs D pat self))
    = flat_map (file_events early_print p) (visited (walk D root))
  /\ filter is_progress (snd (fst (get_files early_print fs D pat self)))
     = map SetFname (visited (walk D root))
  /\ fname (fst (fst (get_files early_print fs D pat self)))
     = last (visited (walk D root)) (fname self).
Proof.
  intros HD Hp. unfold get_files, path_exists, os_walk. rewrite HD.
  destruct (walk_loop_trace early_print pat p Hp (walk D root) self)
    as (s & Heq & Hf).
  rewrite Heq. simpl. split; [reflexivity|]. split; [|exact Hf].
  clear Heq Hf.
  induction (visited (walk D root)) as [|f l IH]; [reflexivity|].
  simpl. rewrite <- IH. f_equal.
  destruct (early_print || pattern_search p f)%bool; reflexivity.
Qed.

Lemma get_files_trace_witness :
  snd (fst (get_files (re := MiniRe.engine) false Fixture.fs "/batch"
              Fixture.xml_regex (Fixture.fresh "/batch")))
    = [SetFname "a.xml"; PrintLooking "a.xml"; SetFname "notes.txt";
       SetFname "x.xml"; PrintLooking "x.xml"; SetFname "x.xml.bak";
       SetFname "x.xml"; PrintLooking "x.xml"]
  /\ filter is_progress
       (snd (fst (get_files (re := MiniRe.engine) false Fixture.fs "/batch"
                    Fixture.xml_regex (Fixture.fresh "/batch"))))
     = map SetFname ["a.xml"; "notes.txt"; "x.xml"; "x.xml.bak"; "x.xml"]
  /\ fname (fst (fst (get_files (re := MiniRe.engine) false Fixture.fs "/batch"
                        Fixture.xml_regex (Fixture.fresh "/batch"))))
     = "x.xml".
Proof.
  exact (get_files_trace (re := MiniRe.engine) false Fixture.fs "/batch"
           Fixture.xml_regex Fixture.batch _ (Fixture.fresh "/batch")
           eq_refl eq_refl).
Defined.

(** X3: a root that exists but holds no file at any depth (an empty
    directory, directories of directories, or a root that is itself a file)
    makes [get_files] do nothing at all: no notification, no message, the
    instance unchanged, and this whatever the pattern, which is never
    compiled, so that a bad pattern goes unnoticed. *)
Theorem get_files_nothing_to_visit
    {re : Re} (early_print : bool) (fs : filesystem) (D pat : string)
    (self : GetFiles) :
  path_exists fs D = true ->
  first_filename (os_walk fs D) = None ->
  get_files early_print fs D pat self = (self, [], Return (files self)).
Proof.
  intros HD Hn. unfold get_files. rewrite HD.
  rewrite (walk_loop_no_file early_print pat _ self Hn). reflexivity.
Qed.

Lemma get_files_nothing_to_visit_witness :
  get_files (re := MiniRe.engine) false Fixture.fs "/empty" "*" Fixture.used
  = (Fixture.used, [], Return (files Fixture.used)).
Proof.
  exact (get_files_nothing_to_visit (re := MiniRe.engine) false Fixture.fs
           "/empty" "*" Fixture.used eq_refl eq_refl).
Defined.

(** X4: the paths [get_files] returns on a fresh instance are joined so that
    [os.path.basename] gives back the file name that was matched: when no
    file name of the walk holds a separator, the base names of the returned
    paths are the matched file names, in walk order.  These base names are the
    keys and the [filename] column of the report. *)
Theorem get_files_base_names
    {re : Re} (early_print : bool) (fs : filesystem) (D pat : string)
    (root : node) (p : pattern) (path0 pat0 : string) :
  fs D = Some root ->
  re_compile pat = Return p ->
  plain_names (walk D root) ->
  exists paths,
    snd (get_files early_print fs D pat (GetFiles_init path0 pat0)) = Return paths
    /\ map basename paths = matched_names p (walk D root).
Proof.
  intros HD Hp Hplain. exists (found p (walk D root)). split.
  - unfold get_files, path_exists, os_walk. rewrite HD.
    destruct (walk_loop_valid early_print pat p Hp (walk D root)
                (GetFiles_init path0 pat0)) as (s & ev & Heq & Hf).
    rewrite Heq. simpl. rewrite Hf. reflexivity.
  - apply found_basenames, Hplain.
Qed.

Lemma get_files_base_names_witness :
  exists paths,
    snd (get_files (re := MiniRe.engine) false Fixture.fs "/batch"
           Fixture.xml_regex (GetFiles_init "" Fixture.xml_regex)) = Return paths
    /\ map basename paths
       = matched_names (re := MiniRe.engine)
           [MiniRe.Bol; MiniRe.Star MiniRe.AnyChar;
            MiniRe.One (MiniRe.Lit "."); MiniRe.One (MiniRe.Lit "x");
            MiniRe.One (MiniRe.Lit "m"); MiniRe.One (MiniRe.Lit "l");
            MiniRe.Eol]
           (walk "/batch" Fixture.batch).
Proof.
  refine (get_files_base_names (re := MiniRe.engine) false Fixture.fs "/batch"
            Fixture.xml_regex Fixture.batch _ "" Fixture.xml_regex
            eq_refl eq_refl _).
  repeat constructor.
Defined.

(** ** The dict of results *)

Section DictFacts.
Import batch_validate_xml.
Context {lx : Lxml}.

Lemma existsb_eqb_In (k : string) (l : list string) :
  existsb (String.eqb k) l = true <-> In k l.
Proof.
  rewrite existsb_exists. split.
  - intros (x & Hx & He). apply String.eqb_eq in He. subst. exact Hx.
  - intros H. exists k. split; [exact H | apply String.eqb_refl].
Qed.

Lemma dict_set_keys (k : string) (v : string * error_log) (d : dict) :
  map fst (dict_set k v d)
  = if existsb (String.eqb k) (map fst d) then map fst d else map fst d ++ [k].
Proof.
  induction d as [|[k' v'] rest IH]; simpl; [reflexivity|].
  rewrite (String.eqb_sym k k').
  destruct (String.eqb k' k); simpl; [reflexivity|].
  rewrite IH. destruct (existsb (String.eqb k) (map fst rest)); reflexivity.
Qed.

Lemma dict_get_set_same (k : string) (v : string * error_log) (d : dict) :
  dict_get k (dict_set k v d) = Some v.
Proof.
  induction d as [|[k' v'] rest IH]; simpl.
  - rewrite String.eqb_refl. reflexivity.
  - destruct (String.eqb k' k) eqn:He; simpl; rewrite He; [reflexivity | exact IH].
Qed.

Lemma dict_get_set_other (k k' : string) (v : string * error_log) (d : dict) :
  k <> k' -> dict_get k' (dict_set k v d) = dict_get k' d.
Proof.
  intros Hne. induction d as [|[k0 v0] rest IH]; simpl.
  - destruct (String.eqb k k') eqn:He; [|reflexivity].
    apply String.eqb_eq in He. contradiction.
  - destruct (String.eqb k0 k) eqn:He; simpl.
    + apply String.eqb_eq in He. subst k0.
      destruct (String.eqb k k') eqn:He'; [|reflexivity].
      apply String.eqb_eq in He'. contradiction.
    + rewrite IH. reflexivity.
Qed.

Lemma dict_get_absent (k : string) (d : dict) :
  ~ In k (map fst d) -> dict_get k d = None.
Proof.
  induction d as [|[k' v'] rest IH]; simpl; intros H; [reflexivity|].
  destruct (String.eqb k' k) eqn:He.
  - apply String.eqb_eq in He. exfalso. apply H. left. exact He.
  - apply IH. intros Hin. apply H. right. exact Hin.
Qed.

Lemma dict_set_NoDup (k : string) (v : string * error_log) (d : dict) :
  NoDup (map fst d) -> NoDup (map fst (dict_set k v d)).
Proof.
  intros Hnd. rewrite dict_set_keys.
  destruct (existsb (String.eqb k) (map fst d)) eqn:He; [exact Hnd|].
  apply NoDup_rev in Hnd. rewrite <- (rev_involutive (map fst d ++ [k])).
  apply NoDup_rev. rewrite rev_app_distr. simpl. constructor; [|exact Hnd].
  intros Hin. apply in_rev in Hin. apply existsb_eqb_In in Hin. congruence.
Qed.

(** Two dicts with the same keys in the same order, none twice, and the same
    value under every key are the same dict. *)
Lemma dict_ext (d1 : dict) :
  forall d2,
    NoDup (map fst d1) ->
    map fst d1 = map fst d2 ->
    (forall k, dict_get k d1 = dict_get k d2) ->
    d1 = d2.
Proof.
  induction d1 as [|[k v] r1 IH]; intros [|[k2 v2] r2] Hnd Hkeys Hget;
    try discriminate; [reflexivity|].
  simpl in Hkeys. inversion Hkeys; subst k2.
  inversion Hnd as [|? ? Hk Hr]; subst.
  pose proof (Hget k) as Hk0. simpl in Hk0. rewrite String.eqb_refl in Hk0.
  inversion Hk0; subst v2. f_equal.
  apply IH; [exact Hr | assumption|].
  intros k'. destruct (String.eqb k k') eqn:He.
  - apply String.eqb_eq in He. subst k'.
    rewrite (dict_get_absent k r1 Hk).
    rewrite dict_get_absent; [reflexivity|]. rewrite <- H1. exact Hk.
  - specialize (Hget k'). simpl in Hget. rewrite He in Hget. exact Hget.
Qed.

Lemma first_occurrences_ext (l : list string) :
  forall s1 s2,
    (forall x, In x s1 <-> In x s2) ->
    first_occurrences s1 l = first_occurrences s2 l.
Proof.
  induction l as [|k rest IH]; intros s1 s2 Hs; simpl; [reflexivity|].
  assert (He : existsb (String.eqb k) s1 = existsb (String.eqb k) s2).
  { destruct (existsb (String.eqb k) s1) eqn:H1; symmetry.
    - apply existsb_eqb_In. apply Hs. apply existsb_eqb_In. exact H1.
    - destruct (existsb (String.eqb k) s2) eqn:H2; [|reflexivity].
      apply existsb_eqb_In in H2. apply Hs in H2.
      apply existsb_eqb_In in H2. congruence. }
  rewrite He. destruct (existsb (String.eqb k) s2).
  - apply IH, Hs.
  - f_equal. apply IH. intros x. simpl. rewrite Hs. tauto.
Qed.

Lemma first_occurrences_seen (l seen : list string) :
  (forall x, In x l -> In x seen) -> first_occurrences seen l = [].
Proof.
  induction l as [|k rest IH]; intros H; simpl; [reflexivity|].
  assert (Hk : existsb (String.eqb k) seen = true).
  { apply existsb_eqb_In, H. left. reflexivity. }
  rewrite Hk. apply IH. intros x Hx. apply H. right. exact Hx.
Qed.

Lemma in_first_occurrences (l : list string) :
  forall seen x, In x l -> In x seen \/ In x (first_occurrences seen l).
Proof.
  induction l as [|k rest IH]; intros seen x Hx; [destruct Hx|].
  simpl. destruct (existsb (String.eqb k) seen) eqn:Hk.
  - destruct Hx as [->|Hx]; [left; apply existsb_eqb_In, Hk | apply IH, Hx].
  - destruct Hx as [->|Hx]; [right; left; reflexivity|].
    destruct (IH (k :: seen) x Hx) as [[->|H]|H].
    + right; left; reflexivity.
    + left; exact H.
    + right; right; exact H.
Qed.

Lemma first_occurrences_distinct (l : list string) :
  NoDup l -> first_occurrences [] l = l.
Proof.
  assert (H : forall seen, NoDup l -> (forall x, In x l -> ~ In x seen) ->
                           first_occurrences seen l = l).
  { induction l as [|k rest IH]; intros seen Hnd Hs; [reflexivity|].
    simpl. inversion Hnd as [|? ? Hk Hr]; subst.
    destruct (existsb (String.eqb k) seen) eqn:He.
    - apply existsb_eqb_In in He. exfalso. apply (Hs k); [left; reflexivity | exact He].
    - f_equal. apply IH; [exact Hr|].
      intros x Hx [->|Hin]; [contradiction|].
      apply (Hs x); [right; exact Hx | exact Hin]. }
  intros Hnd. apply H; [exact Hnd | intros x _ []].
Qed.

Variable xsd : schema.

Lemma record_all_app (ps qs : list (string * doc)) :
  forall d, record_all xsd (ps ++ qs) d = record_all xsd qs (record_all xsd ps d).
Proof.
  induction ps as [|[f x] ps IH]; intros d; [reflexivity|]. simpl. apply IH.
Qed.

Lemma record_all_keys (ps : list (string * doc)) :
  forall d,
    map fst (record_all xsd ps d)
    = map fst d ++ first_occurrences (map fst d) (map (fun fd => basename (fst fd)) ps).
Proof.
  induction ps as [|[f x] ps IH]; intros d; simpl.
  - rewrite app_nil_r. reflexivity.
  - rewrite IH, dict_set_keys.
    destruct (existsb (String.eqb (basename f)) (map fst d)) eqn:He; [reflexivity|].
    rewrite <- app_assoc. simpl. do 2 f_equal.
    apply first_occurrences_ext. intros y. rewrite in_app_iff. simpl. tauto.
Qed.

Lemma record_all_NoDup (ps : list (string * doc)) :
  forall d, NoDup (map fst d) -> NoDup (map fst (record_all xsd ps d)).
Proof.
  induction ps as [|[f x] ps IH]; intros d Hnd; simpl; [exact Hnd|].
  apply IH, dict_set_NoDup, Hnd.
Qed.

Lemma record_all_get (k : string) (ps : list (string * doc)) :
  forall d,
    dict_get k (record_all xsd ps d)
    = match last_verdict xsd k ps with
      | Some v => Some v
      | None => dict_get k d
      end.
Proof.
  induction ps as [|[f x] ps IH]; intros d; simpl; [reflexivity|].
  rewrite IH. destruct (last_verdict xsd k ps); [reflexivity|].
  destruct (String.eqb (basename f) k) eqn:He.
  - apply String.eqb_eq in He. subst k. apply dict_get_set_same.
  - apply dict_get_set_other. intros Heq. subst k.
    rewrite String.eqb_refl in He. discriminate.
Qed.

(** Storing the same verdicts a second time changes nothing. *)
Lemma record_all_twice (ps : list (string * doc)) (d : dict) :
  NoDup (map fst d) ->
  record_all xsd (ps ++ ps) d = record_all xsd ps d.
Proof.
  intros Hnd. rewrite record_all_app.
  apply dict_ext.
  - apply record_all_NoDup, record_all_NoDup, Hnd.
  - rewrite (record_all_keys ps (record_all xsd ps d)).
    rewrite first_occurrences_seen; [apply app_nil_r|].
    intros y Hy. rewrite record_all_keys. apply in_or_app.
    apply in_first_occurrences. exact Hy.
  - intros k. rewrite !record_all_get.
    destruct (last_verdict xsd k ps); reflexivity.
Qed.

(** On files that all parse, the loop stores the verdicts in turn. *)
Lemma validate_files_record (schemaf : string) :
  forall xmlfiles docs ve,
    Forall2 (fun f d => etree_parse f = Parsed d) xmlfiles docs ->
    exists ev,
      validate_files xsd schemaf xmlfiles ve
      = (record_all xsd (combine xmlfiles docs) ve, ev, Return tt).
Proof.
  intros xmlfiles docs ve H. revert ve.
  induction H as [|f d fs ds Hd _ IH]; intros ve; simpl.
  - exists []. reflexivity.
  - unfold validate_one. rewrite Hd. unfold verdict.
    destruct (xsd_validate xsd d) as [valid log]. simpl.
    destruct (IH (dict_set (basename f) (if valid then "valid" else "invalid", log) ve))
      as (ev & Heq).
    rewrite Heq. eexists. reflexivity.
Qed.

Lemma validate_xml_record (schemaf : string) (sd : doc)
    (xmlfiles : list string) (docs : list doc) :
  etree_parse schemaf = Parsed sd ->
  XMLSchema sd = Some xsd ->
  Forall2 (fun f d => etree_parse f = Parsed d) xmlfiles docs ->
  snd (validate_xml xmlfiles schemaf)
  = Return (record_all xsd (combine xmlfiles docs) []).
Proof.
  intros Hs Hx Hdocs. unfold validate_xml, validate_try. rewrite Hs, Hx.
  destruct (validate_files_record schemaf xmlfiles docs [] Hdocs) as (ev & Heq).
  rewrite Heq. reflexivity.
Qed.

End DictFacts.

Lemma Forall2_combine_fst {A B : Type} (R : A -> B -> Prop) (g : A -> string)
    (l : list A) (l' : list B) :
  Forall2 R l l' -> map (fun ab => g (fst ab)) (combine l l') = map g l.
Proof.
  induction 1; simpl; [reflexivity|]. f_equal. assumption.
Qed.

Lemma Forall2_combine_app {A B : Type} (R : A -> B -> Prop)
    (l1 l2 : list A) (m1 m2 : list B) :
  Forall2 R l1 m1 ->
  combine (l1 ++ l2) (m1 ++ m2) = combine l1 m1 ++ combine l2 m2.
Proof.
  induction 1; simpl; [reflexivity|]. f_equal. assumption.
Qed.

Lemma combine_map_fst {A B C : Type} (g : A -> C) (l : list A) :
  forall l' : list B,
    combine (map g l) l' = map (fun ab => (g (fst ab), snd ab)) (combine l l').
Proof.
  induction l as [|a l IH]; intros [|b l']; simpl; try reflexivity.
  f_equal. apply IH.
Qed.

(** X5: in [batch_validate_xml.py], when the schema loads, every file parses
    and no two files share a base name, [validate_xml] returns one entry per
    file, in the order of the list: the file's base name with the status and
    the log of its own validation. *)
Theorem validate_xml_one_entry_per_file
    {lx : Lxml} (schemaf : string) (sd : doc) (xsd : schema)
    (xmlfiles : list string) (docs : list doc) :
  etree_parse schemaf = Parsed sd ->
  XMLSchema sd = Some xsd ->
  Forall2 (fun f d => etree_parse f = Parsed d) xmlfiles docs ->
  NoDup (map basename xmlfiles) ->
  snd (batch_validate_xml.validate_xml xmlfiles schemaf)
  = Return (map (fun fd => (basename (fst fd), verdict xsd (snd fd)))
                (combine xmlfiles docs))
  /\ List.length (combine xmlfiles docs) = List.length xmlfiles.
Proof.
  intros Hs Hx Hdocs Hnd. split.
  - apply (validate_xml_distinct schemaf sd xsd xmlfiles docs Hs Hx Hdocs Hnd).
  - rewrite length_combine, <- (Forall2_length Hdocs). apply Nat.min_id.
Qed.

Lemma validate_xml_one_entry_per_file_witness :
  snd (batch_validate_xml.validate_xml (lx := Fixture.lxml)
         ["/batch/a.xml"; "/batch/b.xml"] "/schemas/mets.xsd")
  = Return (map (fun fd => (basename (fst fd),
                            verdict (lx := Fixture.lxml) tt (snd fd)))
                (combine ["/batch/a.xml"; "/batch/b.xml"]
                         [Fixture.good_doc; Fixture.bad_order_doc]))
  /\ List.length (combine ["/batch/a.xml"; "/batch/b.xml"]
                          [Fixture.good_doc; Fixture.bad_order_doc])
     = List.length ["/batch/a.xml"; "/batch/b.xml"].
Proof.
  refine (validate_xml_one_entry_per_file (lx := Fixture.lxml)
            "/schemas/mets.xsd" Fixture.schema_doc tt
            ["/batch/a.xml"; "/batch/b.xml"]
            [Fixture.good_doc; Fixture.bad_order_doc] eq_refl eq_refl _ _).
  - repeat constructor.
  - repeat constructor; simpl; intuition discriminate.
Defined.

(** X6: in [batch_validate_xml.py], when the schema loads and every file
    parses, the dict [validate_xml] returns holds each base name of the batch
    once, in the order in which the base names first occur in the list, and
    under each base name the verdict on the last file that bears it: a later
    file overwrites an earlier one of the same name, in place. *)
Theorem validate_xml_last_file_wins
    {lx : Lxml} (schemaf : string) (sd : doc) (xsd : schema)
    (xmlfiles : list string) (docs : list doc) :
  etree_parse schemaf = Parsed sd ->
  XMLSchema sd = Some xsd ->
  Forall2 (fun f d => etree_parse f = Parsed d) xmlfiles docs ->
  exists ve,
    snd (batch_validate_xml.validate_xml xmlfiles schemaf) = Return ve
    /\ map fst ve = first_occurrences [] (map basename xmlfiles)
    /\ NoDup (map fst ve)
    /\ forall k, dict_get k ve = last_verdict xsd k (combine xmlfiles docs).
Proof.
  intros Hs Hx Hdocs.
  exists (record_all xsd (combine xmlfiles docs) []).
  split; [apply (validate_xml_record xsd schemaf sd xmlfiles docs Hs Hx Hdocs)|].
  split; [|split].
  - rewrite record_all_keys. simpl.
    rewrite (Forall2_combine_fst _ basename xmlfiles docs Hdocs). reflexivity.
  - apply record_all_NoDup. constructor.
  - intros k. rewrite record_all_get.
    destruct (last_verdict xsd k (combine xmlfiles docs)); reflexivity.
Qed.

Lemma validate_xml_last_file_wins_witness :
  exists ve,
    snd (batch_validate_xml.validate_xml (lx := Fixture.lxml)
           ["/batch/vol1/x.xml"; "/batch/a.xml"; "/batch/vol2/x.xml"]
           "/schemas/mets.xsd") = Return ve
    /\ map fst ve
       = first_occurrences []
           (map basename ["/batch/vol1/x.xml"; "/batch/a.xml"; "/batch/vol2/x.xml"])
    /\ NoDup (map fst ve)
    /\ forall k,
         dict_get k ve
         = last_verdict (lx := Fixture.lxml) tt k
             (combine ["/batch/vol1/x.xml"; "/batch/a.xml"; "/batch/vol2/x.xml"]
                      [Fixture.good_doc; Fixture.good_doc; Fixture.bad_order_doc]).
Proof.
  refine (validate_xml_last_file_wins (lx := Fixture.lxml)
            "/schemas/mets.xsd" Fixture.schema_doc tt
            ["/batch/vol1/x.xml"; "/batch/a.xml"; "/batch/vol2/x.xml"]
            [Fixture.good_doc; Fixture.good_doc; Fixture.bad_order_doc]
            eq_refl eq_refl _).
  repeat constructor.
Defined.

(** X7: pressing VALIDATE a second time on an unchanged batch, in
    [batch_validate_xml.py], hands [validate_xml] every path twice, yet the
    report is the same as that of the first press (the clock apart, which
    names the file): the dict keeps one entry per base name.  The report is
    written whenever [./logs] can be made and the report opened. *)
Theorem validate_second_press_same_report
    {re : Re} {lx : Lxml} (fs : filesystem) (strftime : string -> string)
    (D pat sch_loc : string) (root : node) (p : pattern) (sd : doc)
    (xsd : schema) (docs : list doc) (path0 pat0 : string) :
  fs D = Some root ->
  re_compile pat = Return p ->
  etree_parse sch_loc = Parsed sd ->
  XMLSchema sd = Some xsd ->
  Forall2 (fun f d => etree_parse f = Parsed d) (found p (walk D root)) docs ->
  files (fst (fst (batch_validate_xml.validate fs strftime
                     (fst (fst (batch_validate_xml.validate fs strftime
                                  (GetFiles_init path0 pat0) D pat sch_loc)))
                     D pat sch_loc)))
    = found p (walk D root) ++ found p (walk D root)
  /\ snd (batch_validate_xml.validate fs strftime
            (fst (fst (batch_validate_xml.validate fs strftime
                         (GetFiles_init path0 pat0) D pat sch_loc)))
            D pat sch_loc)
     = snd (batch_validate_xml.validate fs strftime
              (GetFiles_init path0 pat0) D pat sch_loc)
  /\ (writable fs ->
      exists art,
        snd (batch_validate_xml.validate fs strftime
               (GetFiles_init path0 pat0) D pat sch_loc) = Return art).
Proof.
  intros HD Hp Hs Hx Hdocs.
  destruct (get_files_fresh_valid false fs D pat root p (GetFiles_init path0 pat0) HD Hp)
    as (s1 & ev1 & Hg1 & Hf1).
  simpl in Hf1.
  destruct (batch_validate_after_get_files fs strftime _ _ _ _ D pat sch_loc Hg1)
    as [Hself1 Hres1].
  rewrite Hself1, Hres1.
  destruct (get_files_fresh_valid false fs D pat root p s1 HD Hp)
    as (s2 & ev2 & Hg2 & Hf2).
  destruct (batch_validate_after_get_files fs strftime _ _ _ _ D pat sch_loc Hg2)
    as [Hself2 Hres2].
  rewrite Hself2, Hres2, Hf2, Hf1.
  split; [reflexivity|].
  rewrite (validate_xml_record xsd sch_loc sd _ docs Hs Hx Hdocs).
  assert (Hdocs2 : Forall2 (fun f d => etree_parse f = Parsed d)
                     (found p (walk D root) ++ found p (walk D root)) (docs ++ docs)).
  { apply Forall2_app; exact Hdocs. }
  rewrite (validate_xml_record xsd sch_loc sd _ (docs ++ docs) Hs Hx Hdocs2).
  rewrite (Forall2_combine_app _ _ _ _ _ Hdocs).
  rewrite record_all_twice; [|constructor].
  split; [reflexivity | apply write_errors_writable].
Qed.

Lemma validate_second_press_same_report_witness :
  files (fst (fst (batch_validate_xml.validate (re := MiniRe.engine)
                     (lx := Fixture.lxml) Fixture.fs Fixture.clock
                     (fst (fst (batch_validate_xml.validate (re := MiniRe.engine)
                                  (lx := Fixture.lxml) Fixture.fs Fixture.clock
                                  (GetFiles_init "" Fixture.xml_regex)
                                  "/batch" Fixture.xml_regex "/schemas/mets.xsd")))
                     "/batch" Fixture.xml_regex "/schemas/mets.xsd")))
    = found (re := MiniRe.engine)
        [MiniRe.Bol; MiniRe.Star MiniRe.AnyChar;
         MiniRe.One (MiniRe.Lit "."); MiniRe.One (MiniRe.Lit "x");
         MiniRe.One (MiniRe.Lit "m"); MiniRe.One (MiniRe.Lit "l"); MiniRe.Eol]
        (walk "/batch" Fixture.batch)
      ++ found (re := MiniRe.engine)
           [MiniRe.Bol; MiniRe.Star MiniRe.AnyChar;
            MiniRe.One (MiniRe.Lit "."); MiniRe.One (MiniRe.Lit "x");
            MiniRe.One (MiniRe.Lit "m"); MiniRe.One (MiniRe.Lit "l"); MiniRe.Eol]
           (walk "/batch" Fixture.batch)
  /\ snd (batch_validate_xml.validate (re := MiniRe.engine)
            (lx := Fixture.lxml) Fixture.fs Fixture.clock
            (fst (fst (batch_validate_xml.validate (re := MiniRe.engine)
                         (lx := Fixture.lxml) Fixture.fs Fixture.clock
                         (GetFiles_init "" Fixture.xml_regex)
                         "/batch" Fixture.xml_regex "/schemas/mets.xsd")))
            "/batch" Fixture.xml_regex "/schemas/mets.xsd")
     = snd (batch_validate_xml.validate (re := MiniRe.engine)
              (lx := Fixture.lxml) Fixture.fs Fixture.clock
              (GetFiles_init "" Fixture.xml_regex)
              "/batch" Fixture.xml_regex "/schemas/mets.xsd")
  /\ (writable Fixture.fs ->
      exists art,
        snd (batch_validate_xml.validate (re := MiniRe.engine)
               (lx := Fixture.lxml) Fixture.fs Fixture.clock
               (GetFiles_init "" Fixture.xml_regex)
               "/batch" Fixture.xml_regex "/schemas/mets.xsd") = Return art).
Proof.
  refine (validate_second_press_same_report (re := MiniRe.engine)
            (lx := Fixture.lxml) Fixture.fs Fixture.clock
            "/batch" Fixture.xml_regex "/schemas/mets.xsd" Fixture.batch _
            Fixture.schema_doc tt
            [Fixture.good_doc; Fixture.good_doc; Fixture.bad_order_doc]
            "" Fixture.xml_regex eq_refl eq_refl eq_refl eq_refl _).
  repeat constructor.
Defined.

(** X13: a whole run of [batch_validate_xml.py] on a fresh instance.  When
    the root exists, the pattern compiles, the schema loads, every file found
    parses, no file name holds a separator, no two matched files share a name,
    and [./logs] can be made and the report opened, the button callback writes
    a report whose content is the header row followed by one row per matched
    file, in walk order: the file name, the status and [str] of the log of
    that file's validation. *)
Theorem validate_writes_one_row_per_match
    {re : Re} {lx : Lxml} (fs : filesystem) (strftime : string -> string)
    (D pat sch_loc : string) (root : node) (p : pattern) (sd : doc)
    (xsd : schema) (docs : list doc) (path0 pat0 : string) :
  fs D = Some root ->
  re_compile pat = Return p ->
  etree_parse sch_loc = Parsed sd ->
  XMLSchema sd = Some xsd ->
  Forall2 (fun f d => etree_parse f = Parsed d) (found p (walk D root)) docs ->
  plain_names (walk D root) ->
  NoDup (matched_names p (walk D root)) ->
  writable fs ->
  exists art,
    snd (batch_validate_xml.validate fs strftime (GetFiles_init path0 pat0)
           D pat sch_loc) = Return art
    /\ art_content art
       = (("filename,valid,error" ++ String CR nl)
          ++ String.concat ""
               (map (report_row xsd)
                    (combine (matched_names p (walk D root)) docs)))%string.
Proof.
  intros HD Hp Hs Hx Hdocs Hplain Hnd Hw.
  destruct (get_files_fresh_valid false fs D pat root p (GetFiles_init path0 pat0) HD Hp)
    as (s1 & ev1 & Hg1 & Hf1).
  simpl in Hf1.
  destruct (batch_validate_after_get_files fs strftime _ _ _ _ D pat sch_loc Hg1)
    as [_ Hres].
  rewrite Hres, Hf1.
  rewrite <- (found_basenames p (walk D root) Hplain) in Hnd |- *.
  rewrite (validate_xml_distinct sch_loc sd xsd _ docs Hs Hx Hdocs Hnd).
  cbn [snd].
  match goal with
  | |- exists art, snd (batch_validate_xml.write_errors ?f ?t ?ve ?pb ?fl) = _ /\ _ =>
      destruct (write_errors_writable f t ve pb fl Hw) as [art Ha];
      exists art; split; [exact Ha|];
      apply write_errors_returned in Ha; subst art
  end.
  cbn [art_content].
  change (writerow ["filename"; "valid"; "error"])
    with ("filename,valid,error" ++ String CR nl)%string.
  f_equal.
  rewrite combine_map_fst, !map_map. f_equal.
Qed.

Lemma validate_writes_one_row_per_match_witness :
  exists art,
    snd (batch_validate_xml.validate (re := MiniRe.engine) (lx := Fixture.lxml)
           Fixture2.fs Fixture.clock (GetFiles_init "" Fixture.xml_regex)
           "/batch" Fixture.xml_regex "/schemas/mets.xsd") = Return art
    /\ art_content art
       = (("filename,valid,error" ++ String CR nl)
          ++ String.concat ""
               (map (report_row (lx := Fixture.lxml) tt)
                    (combine
                       (matched_names (re := MiniRe.engine) Fixture2.xml_pattern
                          (walk "/batch" Fixture2.batch))
                       Fixture2.docs)))%string.
Proof.
  refine (validate_writes_one_row_per_match (re := MiniRe.engine)
            (lx := Fixture.lxml) Fixture2.fs Fixture.clock
            "/batch" Fixture.xml_regex "/schemas/mets.xsd" Fixture2.batch
            Fixture2.xml_pattern Fixture.schema_doc tt Fixture2.docs
            "" Fixture.xml_regex eq_refl eq_refl eq_refl eq_refl _ _ _ _).
  - repeat constructor.
  - repeat constructor.
  - repeat constructor; simpl; intuition discriminate.
  - split; [discriminate | split; reflexivity].
Defined.

(** ** Why validate_xml raises, and what it prints when it does not *)

Section Diagnosis.
Context {lx : Lxml}.

Lemma validate_files_raises (xsd : schema) (schemaf : string) :
  forall xmlfiles ve ve' ev e,
    batch_validate_xml.validate_files xsd schemaf xmlfiles ve = (ve', ev, Raise e) ->
    exists f,
      In f xmlfiles
      /\ ((e = XMLSyntaxError /\ etree_parse f = NotWellFormed)
          \/ (e = OSError /\ etree_parse f = Unreadable)).
Proof.
  induction xmlfiles as [|f rest IH]; intros ve ve' ev e; simpl.
  - discriminate.
  - unfold batch_validate_xml.validate_one.
    destruct (etree_parse f) as [d| |] eqn:Hd.
    + destruct (xsd_validate xsd d) as [valid log].
      destruct (batch_validate_xml.validate_files xsd schemaf rest _)
        as [[ve2 ev2] r2] eqn:Heq.
      intros H; inversion H; subst.
      destruct (IH _ _ _ _ Heq) as (f' & Hin & Hwhy).
      exists f'. split; [right; exact Hin | exact Hwhy].
    + intros H; inversion H; subst. exists f. split; [left; reflexivity|].
      left. auto.
    + intros H; inversion H; subst. exists f. split; [left; reflexivity|].
      right. auto.
Qed.

Lemma validate_files_raises_txt (xsd : schema) (schemaf : string) :
  forall xmlfiles ve ve' ev e,
    validate_xml_0_0_4.validate_files xsd schemaf xmlfiles ve = (ve', ev, Raise e) ->
    exists f,
      In f xmlfiles
      /\ ((e = XMLSyntaxError /\ etree_parse f = NotWellFormed)
          \/ (e = OSError /\ etree_parse f = Unreadable)).
Proof.
  induction xmlfiles as [|f rest IH]; intros ve ve' ev e; simpl.
  - discriminate.
  - unfold validate_xml_0_0_4.validate_one.
    destruct (etree_parse f) as [d| |] eqn:Hd.
    + destruct (validate_xml_0_0_4.validate_files xsd schemaf rest _)
        as [[ve2 ev2] r2] eqn:Heq.
      intros H; inversion H; subst.
      destruct (IH _ _ _ _ Heq) as (f' & Hin & Hwhy).
      exists f'. split; [right; exact Hin | exact Hwhy].
    + intros H; inversion H; subst. exists f. split; [left; reflexivity|].
      left. auto.
    + intros H; inversion H; subst. exists f. split; [left; reflexivity|].
      right. auto.
Qed.

End Diagnosis.

(** X14: [validate_xml] never lets an [OSError] out, in either script, and an
    exception that does leave it names its cause: [XMLSchemaParseError] means
    that the schema file is well-formed XML but not a schema,
    [XMLSyntaxError] that the schema file or one of the target files is not
    well-formed XML. *)
Theorem validate_xml_raise_cause
    {lx : Lxml} (xmlfiles : list string) (schemaf : string) (e : exn) :
  (snd (batch_validate_xml.validate_xml xmlfiles schemaf) = Raise e ->
   raise_cause xmlfiles schemaf e)
  /\ (snd (validate_xml_0_0_4.validate_xml xmlfiles schemaf) = Raise e ->
      raise_cause xmlfiles schemaf e).
Proof.
  unfold raise_cause. split.
  - unfold batch_validate_xml.validate_xml, batch_validate_xml.validate_try.
    destruct (etree_parse schemaf) as [sd| |] eqn:Hs.
    + destruct (XMLSchema sd) as [xsd|] eqn:Hx.
      * destruct (batch_validate_xml.validate_files xsd schemaf xmlfiles [])
          as [[ve ev] [[]|e']] eqn:Heq; simpl; [discriminate|].
        destruct (validate_files_raises xsd schemaf _ _ _ _ _ Heq)
          as (f & Hin & [[-> Hf]|[-> Hf]]); simpl; [|discriminate].
        intros H; inversion H; subst. left. split; [reflexivity|]. right. eauto.
      * simpl. intros H; inversion H; subst. right. split; [reflexivity|]. eauto.
    + simpl. intros H; inversion H; subst. left. auto.
    + simpl. discriminate.
  - unfold validate_xml_0_0_4.validate_xml, validate_xml_0_0_4.validate_try.
    destruct (etree_parse schemaf) as [sd| |] eqn:Hs.
    + destruct (XMLSchema sd) as [xsd|] eqn:Hx.
      * destruct (validate_xml_0_0_4.validate_files xsd schemaf xmlfiles [])
          as [[ve ev] [[]|e']] eqn:Heq; simpl; [discriminate|].
        destruct (validate_files_raises_txt xsd schemaf _ _ _ _ _ Heq)
          as (f & Hin & [[-> Hf]|[-> Hf]]); simpl; [|discriminate].
        intros H; inversion H; subst. left. split; [reflexivity|]. right. eauto.
      * simpl. intros H; inversion H; subst. right. split; [reflexivity|]. eauto.
    + simpl. intros H; inversion H; subst. left. auto.
    + simpl. discriminate.
Qed.

Lemma validate_xml_raise_cause_witness :
  raise_cause (lx := Fixture.lxml)
    ["/batch/a.xml"; "/batch/c.xml"; "/batch/b.xml"] "/schemas/mets.xsd"
    XMLSyntaxError
  /\ raise_cause (lx := Fixture.lxml) ["/batch/a.xml"] "/schemas/notes.xml"
       XMLSchemaParseError.
Proof.
  split.
  - exact (proj1 (validate_xml_raise_cause (lx := Fixture.lxml)
                    ["/batch/a.xml"; "/batch/c.xml"; "/batch/b.xml"]
                    "/schemas/mets.xsd" XMLSyntaxError) eq_refl).
  - exact (proj2 (validate_xml_raise_cause (lx := Fixture.lxml)
                    ["/batch/a.xml"] "/schemas/notes.xml" XMLSchemaParseError)
                 eq_refl).
Defined.

(** X15: the message of the [except(OSError)] handler blames the schema even
    when the schema was loaded: with the schema loaded and the files before it
    parsed, a target file that cannot be read makes [validate_xml], in either
    script, end its output with the line that announces the validation of that
    file followed by [`schemaf` can not be loaded]. *)
Theorem validate_xml_blames_the_schema
    {lx : Lxml} (schemaf : string) (sd : doc) (xsd : schema)
    (pre post : list string) (bad : string) :
  etree_parse schemaf = Parsed sd ->
  XMLSchema sd = Some xsd ->
  Forall parses pre ->
  etree_parse bad = Unreadable ->
  (exists ev,
     fst (batch_validate_xml.validate_xml (pre ++ bad :: post) schemaf)
     = ev ++ [PrintValidating (basename bad) (basename schemaf);
              PrintCannotLoad schemaf])
  /\ (exists ev,
        fst (validate_xml_0_0_4.validate_xml (pre ++ bad :: post) schemaf)
        = ev ++ [PrintValidating (basename bad) (basename schemaf);
                 PrintCannotLoad schemaf]).
Proof.
  intros Hs Hx Hpre Hbad. split.
  - destruct (validate_files_prefix xsd schemaf pre [] Hpre) as (ve' & ev & _ & Happ).
    exists ev.
    unfold batch_validate_xml.validate_xml, batch_validate_xml.validate_try.
    rewrite Hs, Hx, (Happ (bad :: post)). simpl.
    unfold batch_validate_xml.validate_one. rewrite Hbad. simpl.
    rewrite <- app_assoc. reflexivity.
  - destruct (validate_files_prefix_txt xsd schemaf pre [] Hpre)
      as (ve' & ev & _ & _ & Happ).
    exists ev.
    unfold validate_xml_0_0_4.validate_xml, validate_xml_0_0_4.validate_try.
    rewrite Hs, Hx, (Happ (bad :: post)). simpl.
    unfold validate_xml_0_0_4.validate_one. rewrite Hbad. simpl.
    rewrite <- app_assoc. reflexivity.
Qed.

Lemma validate_xml_blames_the_schema_witness :
  (exists ev,
     fst (batch_validate_xml.validate_xml (lx := Fixture.lxml)
            (["/batch/a.xml"] ++ "/batch/gone.xml" :: ["/batch/b.xml"])
            "/schemas/mets.xsd")
     = ev ++ [PrintValidating (basename "/batch/gone.xml")
                (basename "/schemas/mets.xsd");
              PrintCannotLoad "/schemas/mets.xsd"])
  /\ (exists ev,
        fst (validate_xml_0_0_4.validate_xml (lx := Fixture.lxml)
               (["/batch/a.xml"] ++ "/batch/gone.xml" :: ["/batch/b.xml"])
               "/schemas/mets.xsd")
        = ev ++ [PrintValidating (basename "/batch/gone.xml")
                   (basename "/schemas/mets.xsd");
                 PrintCannotLoad "/schemas/mets.xsd"]).
Proof.
  refine (validate_xml_blames_the_schema (lx := Fixture.lxml)
            "/schemas/mets.xsd" Fixture.schema_doc tt
            ["/batch/a.xml"] ["/batch/b.xml"] "/batch/gone.xml"
            eq_refl eq_refl _ eq_refl).
  constructor; [exists Fixture.good_doc; reflexivity | constructor].
Defined.

(** ** The text script *)

Lemma str_append_nil_r (a : string) : (a ++ EmptyString)%string = a.
Proof.
  induction a as [|c a IH]; simpl; [reflexivity|]. rewrite IH. reflexivity.
Qed.

Lemma concat_empty_cons (x : string) (l : list string) :
  String.concat EmptyString (x :: l) = (x ++ String.concat EmptyString l)%string.
Proof.
  destruct l; simpl; [rewrite str_append_nil_r|]; reflexivity.
Qed.

Lemma concat_empty_app (l1 l2 : list string) :
  String.concat EmptyString (l1 ++ l2)
  = (String.concat EmptyString l1 ++ String.concat EmptyString l2)%string.
Proof.
  induction l1 as [|x l1 IH]; [reflexivity|].
  rewrite <- app_comm_cons, !concat_empty_cons, IH, str_append_assoc.
  reflexivity.
Qed.

Section TextFacts.
Import validate_xml_0_0_4.
Context {re : Re} {lx : Lxml}.

Lemma validate_files_logs (xsd : schema) (schemaf : string) :
  forall xmlfiles docs ve,
    Forall2 (fun f d => etree_parse f = Parsed d) xmlfiles docs ->
    exists ev,
      validate_files xsd schemaf xmlfiles ve
      = (ve ++ map (fun d => snd (xsd_validate xsd d)) docs, ev, Return tt).
Proof.
  intros xmlfiles docs ve H. revert ve.
  induction H as [|f d fs ds Hd _ IH]; intros ve; simpl.
  - exists []. rewrite app_nil_r. reflexivity.
  - unfold validate_one. rewrite Hd.
    destruct (IH (ve ++ [snd (xsd_validate xsd d)])) as (ev & Heq).
    rewrite Heq, <- app_assoc. eexists. reflexivity.
Qed.

Lemma validate_xml_logs (schemaf : string) (sd : doc) (xsd : schema)
    (xmlfiles : list string) (docs : list doc) :
  etree_parse schemaf = Parsed sd ->
  XMLSchema sd = Some xsd ->
  Forall2 (fun f d => etree_parse f = Parsed d) xmlfiles docs ->
  snd (validate_xml xmlfiles schemaf)
  = Return (map (fun d => snd (xsd_validate xsd d)) docs).
Proof.
  intros Hs Hx Hdocs. unfold validate_xml, validate_try. rewrite Hs, Hx.
  destruct (validate_files_logs xsd schemaf xmlfiles docs [] Hdocs) as (ev & Heq).
  rewrite Heq. reflexivity.
Qed.

Lemma error_blocks_filter (ve : list error_log) :
  String.concat EmptyString (map error_block ve)
  = String.concat EmptyString (map log_block (filter nonempty_log ve)).
Proof.
  induction ve as [|log ve IH]; [reflexivity|].
  simpl map. rewrite concat_empty_cons, IH.
  unfold error_block, nonempty_log. simpl filter.
  destruct (0 <? Datatypes.length log)%nat.
  - simpl map. rewrite concat_empty_cons. reflexivity.
  - reflexivity.
Qed.

Lemma text_validate_after_get_files
    (fs : filesystem) (strftime : string -> string)
    (self self1 : GetFiles) (ev1 : list event) (paths : list string)
    (var re1 sch_loc : string) :
  get_files fs var re1 self = (self1, ev1, Return paths) ->
  fst (fst (validate fs strftime self var re1 sch_loc)) = self1
  /\ snd (validate fs strftime self var re1 sch_loc)
     = match snd (validate_xml (files self1) sch_loc) with
       | Return ve => snd (write_errors fs strftime ve var (files self1))
       | Raise e => Raise e
       end.
Proof.
  intros Hg. unfold validate. rewrite Hg.
  destruct (validate_xml (files self1) sch_loc) as [ev2 [ve|e]]; simpl; [|auto].
  destruct (write_errors fs strftime ve var (files self1)) as [ev3 [art|e]];
    simpl; auto.
Qed.

Lemma write_errors_text_returned (fs : filesystem) (strftime : string -> string)
    (ve : list error_log) (path_batch : string) (xmlfiles : list string)
    (art : artifact) :
  snd (write_errors fs strftime ve path_batch xmlfiles) = Return art ->
  art = {| art_path :=
             join "./logs"
               ("validate_xml-" ++ basename path_batch ++ "-"
                ++ strftime "%Y%m%d_%H%M%S" ++ ".txt");
           art_content :=
             (strftime ("[validate_xml log generated %Y%m%dT%H:%M:%S]" ++ nl ++ nl)
              ++ String.concat EmptyString (map error_block ve)
              ++ summary ve xmlfiles)%string |}.
Proof.
  unfold write_errors, os_mkdir, open_w.
  destruct (path_exists fs "./logs"), (mkdir_raises fs "./logs"),
    (lookup fs "./logs") as [[|]|]; simpl; try discriminate;
    destruct (open_raises fs _); simpl;
    intros H; inversion H; reflexivity.
Qed.

Lemma write_errors_text_writable (fs : filesystem) (strftime : string -> string)
    (ve : list error_log) (path_batch : string) (xmlfiles : list string) :
  writable fs ->
  exists art, snd (write_errors fs strftime ve path_batch xmlfiles) = Return art.
Proof.
  intros (Hl & Hm & Ho).
  unfold write_errors, os_mkdir, open_w, path_exists.
  rewrite Hm, Ho.
  destruct (lookup fs "./logs") as [[|]|]; [contradiction | |];
    eexists; reflexivity.
Qed.

End TextFacts.

(** X8: in [validate_xml_0_0_4.py], when the schema loads and every file
    parses, [validate_xml] returns the logs of the validations, one per file
    and in the order of the list, empty logs included; so the summary of the
    report counts no file as validated and every file as an error, whatever
    the logs hold. *)
Theorem validate_xml_one_log_each
    {lx : Lxml} (schemaf : string) (sd : doc) (xsd : schema)
    (xmlfiles : list string) (docs : list doc) :
  etree_parse schemaf = Parsed sd ->
  XMLSchema sd = Some xsd ->
  Forall2 (fun f d => etree_parse f = Parsed d) xmlfiles docs ->
  snd (validate_xml_0_0_4.validate_xml xmlfiles schemaf)
    = Return (map (fun d => snd (xsd_validate xsd d)) docs)
  /\ validate_xml_0_0_4.validated_succesfully
       (map (fun d => snd (xsd_validate xsd d)) docs) xmlfiles = 0%Z
  /\ validate_xml_0_0_4.validation_error_count
       (map (fun d => snd (xsd_validate xsd d)) docs)
     = Z.of_nat (List.length xmlfiles).
Proof.
  intros Hs Hx Hdocs. split; [apply (validate_xml_logs schemaf sd); assumption|].
  unfold validate_xml_0_0_4.validated_succesfully,
    validate_xml_0_0_4.validation_error_count.
  rewrite length_map, <- (Forall2_length Hdocs). split; [lia | reflexivity].
Qed.

Lemma validate_xml_one_log_each_witness :
  snd (validate_xml_0_0_4.validate_xml (lx := Fixture.lxml)
         ["/batch/a.xml"; "/batch/b.xml"] "/schemas/mets.xsd")
    = Return (map (fun d => snd (xsd_validate (Lxml := Fixture.lxml) tt d))
                  Fixture2.docs)
  /\ validate_xml_0_0_4.validated_succesfully
       (map (fun d => snd (xsd_validate (Lxml := Fixture.lxml) tt d)) Fixture2.docs)
       ["/batch/a.xml"; "/batch/b.xml"] = 0%Z
  /\ validate_xml_0_0_4.validation_error_count
       (map (fun d => snd (xsd_validate (Lxml := Fixture.lxml) tt d)) Fixture2.docs)
     = Z.of_nat (List.length ["/batch/a.xml"; "/batch/b.xml"]).
Proof.
  refine (validate_xml_one_log_each (lx := Fixture.lxml) "/schemas/mets.xsd"
            Fixture.schema_doc tt ["/batch/a.xml"; "/batch/b.xml"] Fixture2.docs
            eq_refl eq_refl _).
  repeat constructor.
Defined.

(** X9: the text report of [validate_xml_0_0_4.py] is the banner, then a
    block for every log that is not empty, in order, then the summary; a file
    whose log is empty leaves no trace in the report but in the numbers of the
    summary, which count every log.  [write_errors] returns this report
    whenever [./logs] can be made and the report opened. *)
Theorem write_errors_text_blocks
    {lx : Lxml} (fs : filesystem) (strftime : string -> string)
    (ve : list error_log) (path_batch : string) (xmlfiles : list string) :
  (forall art,
     snd (validate_xml_0_0_4.write_errors fs strftime ve path_batch xmlfiles)
       = Return art ->
     art_content art
     = (strftime ("[validate_xml log generated %Y%m%dT%H:%M:%S]" ++ nl ++ nl)
        ++ String.concat "" (map log_block (filter nonempty_log ve))
        ++ nl ++ "Validated succesfully: "
        ++ str_int (Z.of_nat (List.length xmlfiles) - Z.of_nat (List.length ve))
        ++ validate_xml_0_0_4.summary_indent
        ++ nl ++ "Validation errors: " ++ str_int (Z.of_nat (List.length ve)))%string)
  /\ (writable fs ->
      exists art,
        snd (validate_xml_0_0_4.write_errors fs strftime ve path_batch xmlfiles)
          = Return art).
Proof.
  split; [|apply write_errors_text_writable].
  intros art Ha. apply write_errors_text_returned in Ha. subst art.
  cbn [art_content]. rewrite error_blocks_filter. reflexivity.
Qed.

Lemma write_errors_text_blocks_witness :
  exists art,
    snd (validate_xml_0_0_4.write_errors (lx := Fixture.lxml) Fixture.fs
           Fixture.clock [[]; [Fixture.order_error]] "/batch"
           ["/batch/a.xml"; "/batch/b.xml"]) = Return art
    /\ art_content art
       = (Fixture.clock ("[validate_xml log generated %Y%m%dT%H:%M:%S]" ++ nl ++ nl)
          ++ String.concat ""
               (map (log_block (lx := Fixture.lxml))
                    (filter nonempty_log [[]; [Fixture.order_error]]))
          ++ nl ++ "Validated succesfully: "
          ++ str_int (Z.of_nat (List.length ["/batch/a.xml"; "/batch/b.xml"])
                      - Z.of_nat (List.length [[]; [Fixture.order_error]]))
          ++ validate_xml_0_0_4.summary_indent
          ++ nl ++ "Validation errors: "
          ++ str_int (Z.of_nat (List.length [[]; [Fixture.order_error]])))%string.
Proof.
  destruct (write_errors_text_blocks (lx := Fixture.lxml) Fixture.fs
              Fixture.clock [[]; [Fixture.order_error]] "/batch"
              ["/batch/a.xml"; "/batch/b.xml"]) as [Hc Hw].
  destruct (Hw fixture_writable) as [art Ha].
  exists art. split; [exact Ha | exact (Hc art Ha)].
Defined.

(** X10: when the schema file cannot be read, the run of
    [validate_xml_0_0_4.py] still writes a report, once [get_files] has
    returned and provided [./logs] can be made and the report opened: the
    banner and a summary that counts every file found as validated and none as
    an error, although no file was validated. *)
Theorem validate_text_schema_unreadable
    {re : Re} {lx : Lxml} (fs : filesystem) (strftime : string -> string)
    (self self1 : GetFiles) (ev1 : list event) (paths : list string)
    (var re1 sch_loc : string) :
  validate_xml_0_0_4.get_files fs var re1 self = (self1, ev1, Return paths) ->
  etree_parse sch_loc = Unreadable ->
  writable fs ->
  exists ev art,
    validate_xml_0_0_4.validate fs strftime self var re1 sch_loc
      = (self1, ev, Return art)
    /\ snd (validate_xml_0_0_4.validate_xml (files self1) sch_loc) = Return []
    /\ art_content art
       = (strftime ("[validate_xml log generated %Y%m%dT%H:%M:%S]" ++ nl ++ nl)
          ++ nl ++ "Validated succesfully: "
          ++ str_int (Z.of_nat (List.length (files self1)))
          ++ validate_xml_0_0_4.summary_indent
          ++ nl ++ "Validation errors: 0")%string.
Proof.
  intros Hg Hs Hw.
  destruct (text_validate_after_get_files fs strftime self self1 ev1 paths
              var re1 sch_loc Hg) as [Hself Hres].
  assert (Hve : validate_xml_0_0_4.validate_xml (files self1) sch_loc
                = ([PrintCannotLoad sch_loc], Return [])).
  { unfold validate_xml_0_0_4.validate_xml, validate_xml_0_0_4.validate_try.
    rewrite Hs. reflexivity. }
  rewrite Hve in Hres. cbn [snd] in Hres.
  destruct (write_errors_text_writable fs strftime [] var (files self1) Hw)
    as [art Ha].
  rewrite Ha in Hres.
  destruct (validate_xml_0_0_4.validate fs strftime self var re1 sch_loc)
    as [[s ev] r].
  cbn [fst snd] in Hself, Hres. subst s r.
  exists ev, art. split; [reflexivity|]. split; [rewrite Hve; reflexivity|].
  apply write_errors_text_returned in Ha. subst art. cbn [art_content].
  unfold validate_xml_0_0_4.summary, validate_xml_0_0_4.validated_succesfully,
    validate_xml_0_0_4.validation_error_count.
  simpl List.length. rewrite Z.sub_0_r. reflexivity.
Qed.

Lemma validate_text_schema_unreadable_witness :
  exists ev art,
    validate_xml_0_0_4.validate (re := MiniRe.engine) (lx := Fixture.lxml)
      Fixture2.fs Fixture.clock (GetFiles_init "" Fixture.xml_regex)
      "/batch" Fixture.xml_regex "/schemas/missing.xsd"
      = (Fixture2.found_instance, ev, Return art)
    /\ snd (validate_xml_0_0_4.validate_xml (lx := Fixture.lxml)
              (files Fixture2.found_instance) "/schemas/missing.xsd") = Return []
    /\ art_content art
       = (Fixture.clock ("[validate_xml log generated %Y%m%dT%H:%M:%S]" ++ nl ++ nl)
          ++ nl ++ "Validated succesfully: "
          ++ str_int (Z.of_nat (List.length (files Fixture2.found_instance)))
          ++ validate_xml_0_0_4.summary_indent
          ++ nl ++ "Validation errors: 0")%string.
Proof.
  refine (validate_text_schema_unreadable (re := MiniRe.engine)
            (lx := Fixture.lxml) Fixture2.fs Fixture.clock
            (GetFiles_init "" Fixture.xml_regex) Fixture2.found_instance
            (snd (fst (validate_xml_0_0_4.get_files (re := MiniRe.engine)
                         Fixture2.fs "/batch" Fixture.xml_regex
                         (GetFiles_init "" Fixture.xml_regex))))
            (files Fixture2.found_instance)
            "/batch" Fixture.xml_regex "/schemas/missing.xsd" eq_refl eq_refl _).
  split; [discriminate | split; reflexivity].
Defined.

(** X11: pressing VALIDATE a second time on an unchanged batch, in
    [validate_xml_0_0_4.py], validates every file twice: the second report
    holds every block of the first twice, and its summary counts twice as
    many errors.  Both presses are taken with [./logs] that can be made and
    reports that can be opened. *)
Theorem validate_text_second_press
    {re : Re} {lx : Lxml} (fs : filesystem) (strftime : string -> string)
    (D pat sch_loc : string) (root : node) (p : pattern) (sd : doc)
    (xsd : schema) (docs : list doc) (path0 pat0 : string) :
  fs D = Some root ->
  re_compile pat = Return p ->
  etree_parse sch_loc = Parsed sd ->
  XMLSchema sd = Some xsd ->
  Forall2 (fun f d => etree_parse f = Parsed d) (found p (walk D root)) docs ->
  writable fs ->
  exists art1 art2,
    snd (validate_xml_0_0_4.validate fs strftime (GetFiles_init path0 pat0)
           D pat sch_loc) = Return art1
    /\ snd (validate_xml_0_0_4.validate fs strftime
              (fst (fst (validate_xml_0_0_4.validate fs strftime
                           (GetFiles_init path0 pat0) D pat sch_loc)))
              D pat sch_loc) = Return art2
    /\ art_content art1
       = (strftime ("[validate_xml log generated %Y%m%dT%H:%M:%S]" ++ nl ++ nl)
          ++ String.concat ""
               (map validate_xml_0_0_4.error_block
                    (map (fun d => snd (xsd_validate xsd d)) docs))
          ++ nl ++ "Validated succesfully: 0"
          ++ validate_xml_0_0_4.summary_indent
          ++ nl ++ "Validation errors: "
          ++ str_int (Z.of_nat (List.length docs)))%string
    /\ art_content art2
       = (strftime ("[validate_xml log generated %Y%m%dT%H:%M:%S]" ++ nl ++ nl)
          ++ (String.concat ""
                (map validate_xml_0_0_4.error_block
                     (map (fun d => snd (xsd_validate xsd d)) docs))
              ++ String.concat ""
                   (map validate_xml_0_0_4.error_block
                        (map (fun d => snd (xsd_validate xsd d)) docs)))
          ++ nl ++ "Validated succesfully: 0"
          ++ validate_xml_0_0_4.summary_indent
          ++ nl ++ "Validation errors: "
          ++ str_int (Z.of_nat (List.length docs + List.length docs)))%string.
Proof.
  intros HD Hp Hs Hx Hdocs Hw.
  destruct (get_files_fresh_valid true fs D pat root p (GetFiles_init path0 pat0) HD Hp)
    as (s1 & ev1 & Hg1 & Hf1).
  simpl in Hf1.
  destruct (text_validate_after_get_files fs strftime _ _ _ _ D pat sch_loc Hg1)
    as [Hself1 Hres1].
  rewrite Hself1, Hres1.
  destruct (get_files_fresh_valid true fs D pat root p s1 HD Hp)
    as (s2 & ev2 & Hg2 & Hf2).
  destruct (text_validate_after_get_files fs strftime _ _ _ _ D pat sch_loc Hg2)
    as [_ Hres2].
  rewrite Hres2, Hf2, Hf1.
  assert (Hdocs2 : Forall2 (fun f d => etree_parse f = Parsed d)
                     (found p (walk D root) ++ found p (walk D root)) (docs ++ docs)).
  { apply Forall2_app; exact Hdocs. }
  rewrite (validate_xml_logs sch_loc sd xsd _ docs Hs Hx Hdocs).
  rewrite (validate_xml_logs sch_loc sd xsd _ (docs ++ docs) Hs Hx Hdocs2).
  cbn [snd].
  match goal with
  | |- exists art1 art2,
         snd (validate_xml_0_0_4.write_errors ?f ?t ?ve1 ?pb ?fl1) = _
         /\ snd (validate_xml_0_0_4.write_errors _ _ ?ve2 _ ?fl2) = _ /\ _ =>
      destruct (write_errors_text_writable f t ve1 pb fl1 Hw) as [art1 Ha1];
      destruct (write_errors_text_writable f t ve2 pb fl2 Hw) as [art2 Ha2]
  end.
  exists art1, art2. split; [exact Ha1|]. split; [exact Ha2|].
  apply write_errors_text_returned in Ha1, Ha2. subst art1 art2.
  pose proof (Forall2_length Hdocs) as Hlen.
  cbn [art_content].
  unfold validate_xml_0_0_4.summary, validate_xml_0_0_4.validated_succesfully,
    validate_xml_0_0_4.validation_error_count.
  rewrite ?map_app, ?concat_empty_app, ?length_app, ?length_map, ?Hlen, ?Z.sub_diag.
  split; reflexivity.
Qed.

Lemma validate_text_second_press_witness :
  exists art1 art2,
    snd (validate_xml_0_0_4.validate (re := MiniRe.engine) (lx := Fixture.lxml)
           Fixture2.fs Fixture.clock (GetFiles_init "" Fixture.xml_regex)
           "/batch" Fixture.xml_regex "/schemas/mets.xsd") = Return art1
    /\ snd (validate_xml_0_0_4.validate (re := MiniRe.engine) (lx := Fixture.lxml)
              Fixture2.fs Fixture.clock
              (fst (fst (validate_xml_0_0_4.validate (re := MiniRe.engine)
                           (lx := Fixture.lxml) Fixture2.fs Fixture.clock
                           (GetFiles_init "" Fixture.xml_regex)
                           "/batch" Fixture.xml_regex "/schemas/mets.xsd")))
              "/batch" Fixture.xml_regex "/schemas/mets.xsd") = Return art2
    /\ art_content art1
       = (Fixture.clock ("[validate_xml log generated %Y%m%dT%H:%M:%S]" ++ nl ++ nl)
          ++ String.concat ""
               (map (validate_xml_0_0_4.error_block (lx := Fixture.lxml))
                    (map (fun d => snd (xsd_validate (Lxml := Fixture.lxml) tt d))
                         Fixture2.docs))
          ++ nl ++ "Validated succesfully: 0"
          ++ validate_xml_0_0_4.summary_indent
          ++ nl ++ "Validation errors: "
          ++ str_int (Z.of_nat (List.length Fixture2.docs)))%string
    /\ art_content art2
       = (Fixture.clock ("[validate_xml log generated %Y%m%dT%H:%M:%S]" ++ nl ++ nl)
          ++ (String.concat ""
                (map (validate_xml_0_0_4.error_block (lx := Fixture.lxml))
                     (map (fun d => snd (xsd_validate (Lxml := Fixture.lxml) tt d))
                          Fixture2.docs))
              ++ String.concat ""
                   (map (validate_xml_0_0_4.error_block (lx := Fixture.lxml))
                        (map (fun d => snd (xsd_validate (Lxml := Fixture.lxml) tt d))
                             Fixture2.docs)))
          ++ nl ++ "Validated succesfully: 0"
          ++ validate_xml_0_0_4.summary_indent
          ++ nl ++ "Validation errors: "
          ++ str_int (Z.of_nat (List.length Fixture2.docs
                                + List.length Fixture2.docs)))%string.
Proof.
  refine (validate_text_second_press (re := MiniRe.engine) (lx := Fixture.lxml)
            Fixture2.fs Fixture.clock "/batch" Fixture.xml_regex
            "/schemas/mets.xsd" Fixture2.batch Fixture2.xml_pattern
            Fixture.schema_doc tt Fixture2.docs "" Fixture.xml_regex
            eq_refl eq_refl eq_refl eq_refl _ _).
  - repeat constructor.
  - split; [discriminate | split; reflexivity].
Defined.

(** ** The name of the report *)

(** X12: both scripts name the report after the last component of the root
    path: for a root [dir/name] the CSV report is
    [./logs/validate_xml-name-<time>.csv] and the text report the same with
    [.txt].  The component after the last separator is meant: for a root
    written with a trailing separator the name is empty, and the report is
    [./logs/validate_xml--<time>.csv].  The reports are returned whenever
    [./logs] can be made and they can be opened. *)
Theorem report_path_names_the_batch
    {lx : Lxml} (fs : filesystem) (strftime : string -> string)
    (dir name : string) (ve : batch_validate_xml.dict) (logs : list error_log)
    (xmlfiles : list string) :
  contains_sep name = false ->
  (forall art,
     snd (batch_validate_xml.write_errors fs strftime ve
            (dir ++ String SEP name) xmlfiles) = Return art ->
     art_path art
     = ("./logs/validate_xml-" ++ name ++ "-" ++ strftime "%Y%m%d_%H%M%S"
        ++ ".csv")%string)
  /\ (forall art,
        snd (validate_xml_0_0_4.write_errors fs strftime logs
               (dir ++ String SEP name) xmlfiles) = Return art ->
        art_path art
        = ("./logs/validate_xml-" ++ name ++ "-" ++ strftime "%Y%m%d_%H%M%S"
           ++ ".txt")%string)
  /\ (writable fs ->
      (exists art,
         snd (batch_validate_xml.write_errors fs strftime ve
                (dir ++ String SEP name) xmlfiles) = Return art)
      /\ (exists art,
            snd (validate_xml_0_0_4.write_errors fs strftime logs
                   (dir ++ String SEP name) xmlfiles) = Return art)).
Proof.
  intros Hname. split; [|split].
  - intros art Ha. apply write_errors_returned in Ha. subst art.
    cbn [art_path]. rewrite (basename_after_sep dir name Hname). reflexivity.
  - intros art Ha. apply write_errors_text_returned in Ha. subst art.
    cbn [art_path]. rewrite (basename_after_sep dir name Hname). reflexivity.
  - intros Hw. split;
      [apply write_errors_writable | apply write_errors_text_writable]; exact Hw.
Qed.

Lemma report_path_names_the_batch_witness :
  (exists art,
     snd (batch_validate_xml.write_errors (lx := Fixture.lxml)
            Fixture.fs Fixture.clock [] "/data/batch7/" []) = Return art
     /\ art_path art = "./logs/validate_xml--20200327_101500.csv")
  /\ (exists art,
        snd (validate_xml_0_0_4.write_errors (lx := Fixture.lxml)
               Fixture.fs Fixture.clock [] "/data/batch7/" []) = Return art
        /\ art_path art = "./logs/validate_xml--20200327_101500.txt").
Proof.
  pose proof (report_path_names_the_batch (lx := Fixture.lxml) Fixture.fs
                Fixture.clock "/data/batch7" "" [] [] [] eq_refl)
    as (Hc & Ht & Hw).
  destruct (Hw fixture_writable) as [[a1 H1] [a2 H2]].
  split; [exists a1 | exists a2]; (split; [assumption|]).
  - exact (Hc a1 H1).
  - exact (Ht a2 H2).
Defined.

(** ** The status of a file *)






(** ** A working directory that cannot take the report *)

(** X16: when [./logs] exists and is a regular file, [write_errors] of either
    script skips [os.mkdir], prints the path of the report and raises
    [OSError] at [open]: no report is written, and the button callback of
    [batch_validate_xml.py], which catches nothing, raises it too, after the
    files were searched and validated. *)
Theorem write_errors_logs_not_a_directory
    {re : Re} {lx : Lxml} (fs : filesystem) (strftime : string -> string)
    (self self1 : GetFiles) (ev1 ev2 : list event) (paths : list string)
    (var re1 sch_loc : string) (ve : batch_validate_xml.dict)
    (logs : list error_log) (xmlfiles : list string) :
  fs "./logs" = Some File ->
  batch_validate_xml.get_files fs var re1 self = (self1, ev1, Return paths) ->
  batch_validate_xml.validate_xml (files self1) sch_loc = (ev2, Return ve) ->
  batch_validate_xml.write_errors fs strftime ve var xmlfiles
    = ([PrintWriting
          (join "./logs"
             ("validate_xml-" ++ basename var ++ "-" ++ strftime "%Y%m%d_%H%M%S"
              ++ ".csv"))],
       Raise OSError)
  /\ validate_xml_0_0_4.write_errors fs strftime logs var xmlfiles
     = ([PrintWriting
           (join "./logs"
              ("validate_xml-" ++ basename var ++ "-" ++ strftime "%Y%m%d_%H%M%S"
               ++ ".txt"))],
        Raise OSError)
  /\ snd (batch_validate_xml.validate fs strftime self var re1 sch_loc)
     = Raise OSError.
Proof.
  intros Hlogs Hg Hve.
  assert (Hw : batch_validate_xml.write_errors fs strftime ve var xmlfiles
               = ([PrintWriting
                     (join "./logs"
                        ("validate_xml-" ++ basename var ++ "-"
                         ++ strftime "%Y%m%d_%H%M%S" ++ ".csv"))],
                  Raise OSError)).
  { unfold batch_validate_xml.write_errors, open_w, path_exists.
    rewrite Hlogs. reflexivity. }
  split; [exact Hw|]. split.
  - unfold validate_xml_0_0_4.write_errors, open_w, path_exists.
    rewrite Hlogs. reflexivity.
  - destruct (batch_validate_after_get_files fs strftime self self1 ev1 paths
                var re1 sch_loc Hg) as [_ Hres].
    rewrite Hres, Hve. cbn [snd].
    unfold batch_validate_xml.write_errors, open_w, path_exists.
    rewrite Hlogs. reflexivity.
Qed.

Lemma write_errors_logs_not_a_directory_witness :
  batch_validate_xml.write_errors (lx := Fixture.lxml) Fixture.fs_logs_file
    Fixture.clock [("a.xml", ("valid", []))] "/clean" ["/clean/a.xml"]
    = ([PrintWriting "./logs/validate_xml-clean-20200327_101500.csv"],
       Raise OSError)
  /\ validate_xml_0_0_4.write_errors (lx := Fixture.lxml) Fixture.fs_logs_file
       Fixture.clock [[]] "/clean" ["/clean/a.xml"]
     = ([PrintWriting "./logs/validate_xml-clean-20200327_101500.txt"],
        Raise OSError)
  /\ snd (batch_validate_xml.validate (re := MiniRe.engine) (lx := Fixture.lxml)
            Fixture.fs_logs_file Fixture.clock (Fixture.fresh "/clean")
            "/clean" Fixture.xml_regex "/schemas/mets.xsd")
     = Raise OSError.
Proof.
  exact (write_errors_logs_not_a_directory (re := MiniRe.engine)
           (lx := Fixture.lxml) Fixture.fs_logs_file Fixture.clock
           (Fixture.fresh "/clean")
           (fst (fst (batch_validate_xml.get_files (re := MiniRe.engine)
                        Fixture.fs_logs_file "/clean" Fixture.xml_regex
                        (Fixture.fresh "/clean"))))
           (snd (fst (batch_validate_xml.get_files (re := MiniRe.engine)
                        Fixture.fs_logs_file "/clean" Fixture.xml_regex
                        (Fixture.fresh "/clean"))))
           [PrintValidating "a.xml" "mets.xsd"]
           ["/clean/a.xml"]
           "/clean" Fixture.xml_regex "/schemas/mets.xsd"
           [("a.xml", ("valid", []))] [[]] ["/clean/a.xml"]
           eq_refl eq_refl eq_refl).
Defined.
